(** * igzValidatingInputField: a model of the controller and its contract

    Shallow embedding of [IgzValidatingInputFieldController]
    (validating-input-field.component.js).  The controller is a closure over
    two private variables ([lastValidValue], [ngModel]) and the public fields
    of [ctrl]; every handler is a state transformer over a record that holds
    both, together with the pieces of the browser the handlers talk to: the
    rule objects (a store of mutable objects addressed by reference), the
    document-level click listener, the pending timers and an ordered log of
    the calls made to the host. *)

From Stdlib Require Import ZArith String Ascii Bool List Lia DecimalString.
From stdpp Require Import base option list.
Import ListNotations.

Local Open Scope Z_scope.

(** ** JavaScript values *)

(** The values a rule predicate may hand back and an [isValid] slot may hold.
    Numbers are kept to the integers. *)
Inductive JsVal :=
| JUndefined
| JNull
| JBool (b : bool)
| JNum (n : Z)
| JStr (s : string).

(** ToBoolean. *)
Definition truthy (v : JsVal) : bool :=
  match v with
  | JUndefined | JNull => false
  | JBool b => b
  | JNum n => negb (n =? 0)
  | JStr s => negb (String.eqb s "")
  end.

(** [v === false]. *)
Definition isFalse (v : JsVal) : bool :=
  match v with
  | JBool false => true
  | _ => false
  end.

(** [a || b] and [a && b] return one of their operands. *)
Definition js_or (a b : JsVal) : JsVal := if truthy a then a else b.
Definition js_and (a b : JsVal) : JsVal := if truthy a then b else a.

(** A value received through a binding: [undefined], [null] or a proper value. *)
Inductive nullable (A : Type) :=
| Undefined
| Null
| Val (a : A).
Arguments Undefined {A}.
Arguments Null {A}.
Arguments Val {A} a.

(** [lodash.defaultTo(value, defaultValue)]. *)
Definition defaultTo {A} (value : nullable A) (defaultValue : A) : A :=
  match value with
  | Val a => a
  | Undefined | Null => defaultValue
  end.

(** An optional binding that was not supplied reads as [undefined], which is
    falsy. *)
Definition is_true (b : option bool) : bool := default false b.

(** One entry of [lodash.defaults]: only an [undefined] slot is filled. *)
Definition orDefault {A} (d : A) (o : option A) : option A :=
  match o with
  | Some a => Some a
  | None => Some d
  end.

(** ** Data model *)

(** The enclosing form controller; the component reads [$submitted] only. *)
Record FormObject := { submitted : bool }.

(** A regular expression is used through [test] alone.  The model covers
    regular expressions without the [g] and [y] flags, whose [test] depends
    on the text only; with one of these flags [test] also reads and writes
    the [lastIndex] of the expression, which is not modelled. *)
Record RegExp := { source : string; test : string -> bool }.

(** [validationRules[].pattern]: a RegExp or a function of the value, the
    field name and the form. *)
Inductive Pattern :=
| PRegExp (re : RegExp)
| PFunction (f : string -> string -> option FormObject -> JsVal).

Record Rule := {
  name : option string;
  label : string;
  pattern : Pattern;
  isValid : JsVal
}.

Definition set_isValid (v : JsVal) (r : Rule) : Rule :=
  {| name := name r; label := label r; pattern := pattern r; isValid := v |}.

(** Rule objects live in a store; arrays hold references into it. *)
Abbreviation loc := nat (only parsing).

(** The DOM event handed to a handler: its key code, an identifier, and
    whether its target lies inside the component's element. *)
Record DomEvent := { keyCode : Z; targetInside : bool; eventId : nat }.

(** Modelled from the spec: [EventHelperService.ENTER], the key code of the
    Enter key, comes from a service that is not part of this component. *)
Definition ENTER : Z := 13.

(** [ngModelOptions] as far as the component sets defaults for them. *)
Inductive Debounce :=
| DebounceNumber (ms : Z)
| DebounceMap (default star : option Z).

Record ModelOptions := {
  updateOn : option string;
  debounce : option Debounce;
  allowInvalid : option bool
}.

Record Tooltip := { text : string; placement : string; duration : string }.

(** The attributes of the component (its [bindings]).  The callbacks
    ([enterCallback], [itemBlurCallback], [itemFocusCallback],
    [updateDataCallback]) are not stored: calling one is recorded in the log,
    whether the host supplied it or it is [angular.noop].  [compareInputValue],
    [inputIcon], [placeholderText] and [validationPattern] are read by the
    template only. *)
Record Bindings := {
  autoComplete : option string;
  bordersMode : option string;
  fieldType : option string;
  formObject : option FormObject;
  hideCounter : option bool;
  inputModelOptions : option ModelOptions;
  inputName : string;
  isClearIcon : option bool;
  isDataRevert : option bool;
  isDisabled : option bool;
  isFocused : option bool;
  onlyValidCharacters : option bool;
  readOnly : option bool;
  spellcheck : option bool;
  tabindex : option string;
  tooltip : option Tooltip;
  trim : option bool;
  updateDataField : option string;
  validationIsRequired : option bool;
  validationMaxLength : option string
}.

(** One attribute replaced. *)
Definition with_bordersMode (v : option string) (b : Bindings) : Bindings :=
  {| autoComplete := autoComplete b; bordersMode := v;
     fieldType := fieldType b; formObject := formObject b;
     hideCounter := hideCounter b; inputModelOptions := inputModelOptions b;
     inputName := inputName b; isClearIcon := isClearIcon b;
     isDataRevert := isDataRevert b; isDisabled := isDisabled b;
     isFocused := isFocused b; onlyValidCharacters := onlyValidCharacters b;
     readOnly := readOnly b; spellcheck := spellcheck b;
     tabindex := tabindex b; tooltip := tooltip b; trim := trim b;
     updateDataField := updateDataField b;
     validationIsRequired := validationIsRequired b;
     validationMaxLength := validationMaxLength b |}.

Definition with_inputModelOptions (v : option ModelOptions) (b : Bindings) : Bindings :=
  {| autoComplete := autoComplete b; bordersMode := bordersMode b;
     fieldType := fieldType b; formObject := formObject b;
     hideCounter := hideCounter b; inputModelOptions := v;
     inputName := inputName b; isClearIcon := isClearIcon b;
     isDataRevert := isDataRevert b; isDisabled := isDisabled b;
     isFocused := isFocused b; onlyValidCharacters := onlyValidCharacters b;
     readOnly := readOnly b; spellcheck := spellcheck b;
     tabindex := tabindex b; tooltip := tooltip b; trim := trim b;
     updateDataField := updateDataField b;
     validationIsRequired := validationIsRequired b;
     validationMaxLength := validationMaxLength b |}.

Definition with_isFocused (v : option bool) (b : Bindings) : Bindings :=
  {| autoComplete := autoComplete b; bordersMode := bordersMode b;
     fieldType := fieldType b; formObject := formObject b;
     hideCounter := hideCounter b; inputModelOptions := inputModelOptions b;
     inputName := inputName b; isClearIcon := isClearIcon b;
     isDataRevert := isDataRevert b; isDisabled := isDisabled b;
     isFocused := v; onlyValidCharacters := onlyValidCharacters b;
     readOnly := readOnly b; spellcheck := spellcheck b;
     tabindex := tabindex b; tooltip := tooltip b; trim := trim b;
     updateDataField := updateDataField b;
     validationIsRequired := validationIsRequired b;
     validationMaxLength := validationMaxLength b |}.

Definition with_fieldType (v : option string) (b : Bindings) : Bindings :=
  {| autoComplete := autoComplete b; bordersMode := bordersMode b;
     fieldType := v; formObject := formObject b;
     hideCounter := hideCounter b; inputModelOptions := inputModelOptions b;
     inputName := inputName b; isClearIcon := isClearIcon b;
     isDataRevert := isDataRevert b; isDisabled := isDisabled b;
     isFocused := isFocused b; onlyValidCharacters := onlyValidCharacters b;
     readOnly := readOnly b; spellcheck := spellcheck b;
     tabindex := tabindex b; tooltip := tooltip b; trim := trim b;
     updateDataField := updateDataField b;
     validationIsRequired := validationIsRequired b;
     validationMaxLength := validationMaxLength b |}.

Definition with_isDataRevert (v : option bool) (b : Bindings) : Bindings :=
  {| autoComplete := autoComplete b; bordersMode := bordersMode b;
     fieldType := fieldType b; formObject := formObject b;
     hideCounter := hideCounter b; inputModelOptions := inputModelOptions b;
     inputName := inputName b; isClearIcon := isClearIcon b;
     isDataRevert := v; isDisabled := isDisabled b; isFocused := isFocused b;
     onlyValidCharacters := onlyValidCharacters b; readOnly := readOnly b;
     spellcheck := spellcheck b; tabindex := tabindex b;
     tooltip := tooltip b; trim := trim b;
     updateDataField := updateDataField b;
     validationIsRequired := validationIsRequired b;
     validationMaxLength := validationMaxLength b |}.

Definition with_validationIsRequired (v : option bool) (b : Bindings) : Bindings :=
  {| autoComplete := autoComplete b; bordersMode := bordersMode b;
     fieldType := fieldType b; formObject := formObject b;
     hideCounter := hideCounter b; inputModelOptions := inputModelOptions b;
     inputName := inputName b; isClearIcon := isClearIcon b;
     isDataRevert := isDataRevert b; isDisabled := isDisabled b;
     isFocused := isFocused b; onlyValidCharacters := onlyValidCharacters b;
     readOnly := readOnly b; spellcheck := spellcheck b;
     tabindex := tabindex b; tooltip := tooltip b; trim := trim b;
     updateDataField := updateDataField b; validationIsRequired := v;
     validationMaxLength := validationMaxLength b |}.

Definition with_validationMaxLength (v : option string) (b : Bindings) : Bindings :=
  {| autoComplete := autoComplete b; bordersMode := bordersMode b;
     fieldType := fieldType b; formObject := formObject b;
     hideCounter := hideCounter b; inputModelOptions := inputModelOptions b;
     inputName := inputName b; isClearIcon := isClearIcon b;
     isDataRevert := isDataRevert b; isDisabled := isDisabled b;
     isFocused := isFocused b; onlyValidCharacters := onlyValidCharacters b;
     readOnly := readOnly b; spellcheck := spellcheck b;
     tabindex := tabindex b; tooltip := tooltip b; trim := trim b;
     updateDataField := updateDataField b;
     validationIsRequired := validationIsRequired b;
     validationMaxLength := v |}.

Definition with_onlyValidCharacters (v : option bool) (b : Bindings) : Bindings :=
  {| autoComplete := autoComplete b; bordersMode := bordersMode b;
     fieldType := fieldType b; formObject := formObject b;
     hideCounter := hideCounter b; inputModelOptions := inputModelOptions b;
     inputName := inputName b; isClearIcon := isClearIcon b;
     isDataRevert := isDataRevert b; isDisabled := isDisabled b;
     isFocused := isFocused b; onlyValidCharacters := v;
     readOnly := readOnly b; spellcheck := spellcheck b;
     tabindex := tabindex b; tooltip := tooltip b; trim := trim b;
     updateDataField := updateDataField b;
     validationIsRequired := validationIsRequired b;
     validationMaxLength := validationMaxLength b |}.


(** The [NgModelController] of the wrapped [<input>]; it belongs to the
    framework.  [ng_validators] are the synchronous validators that the
    directives of the template registered ([required], [maxlength], ...), each
    applied to the model value; [$validators.validationRules] is the
    component's own and is installed when the field is linked.  [$invalid] is
    the negation of [$valid]: no validator is asynchronous. *)
Record NgModel := {
  ng_viewValue : string;
  ng_lastCommittedViewValue : string;
  ng_modelValue : string;
  ng_dirty : bool;
  ng_valid : bool;
  ng_validators : list (string -> bool)
}.

(** Calls that leave the component, in the order they are made. *)
Inductive Effect :=
| UpdateDataCallback (newData : string) (field : option string)
| ItemBlurCallback (event : DomEvent) (inputValue : string) (inputName : string)
| ItemFocusCallback (event : DomEvent) (inputValue : string) (inputName : string)
| EnterCallback
| PatternCall (rule : loc) (value : string) (inputName : string)
              (form : option FormObject)
| PatternTest (rule : loc) (value : string)
| FieldFocus
| TargetFocus (event : DomEvent).

(** Work deferred with [$scope.$applyAsync] or [$timeout]. *)
Inductive Task :=
| TLink
| TFocusField
| TPlacePopUp
| TEnter.

(** ** The controller's state

    [bindings] are the attributes as [ctrl] holds them; [lastValidValue] and
    [ngModel] are the closure's private variables ([ngModel] is [null] until
    the field is linked); [validationRules] is [ctrl.validationRules], an
    array of references into [heap]; [documentClickListeners] counts how many
    times [handleDocumentClick] is attached to the document's [click] event. *)
Record State := {
  bindings : Bindings;
  lastValidValue : string;
  ngModel : option NgModel;
  bordersModeClass : string;
  data : string;
  inputFocused : bool;
  inputIsTouched : bool;
  isValidationPopUpShown : bool;
  preventInputBlur : bool;
  selectedFieldType : string;
  showPopUpOnTop : bool;
  validationRules : nullable (list loc);
  heap : list Rule;
  documentClickListeners : nat;
  timers : list Task;
  log : list Effect
}.

Definition set_bindings (v : Bindings) (st : State) : State :=
  {| bindings := v; lastValidValue := lastValidValue st;
     ngModel := ngModel st; bordersModeClass := bordersModeClass st;
     data := data st; inputFocused := inputFocused st;
     inputIsTouched := inputIsTouched st;
     isValidationPopUpShown := isValidationPopUpShown st;
     preventInputBlur := preventInputBlur st;
     selectedFieldType := selectedFieldType st;
     showPopUpOnTop := showPopUpOnTop st;
     validationRules := validationRules st; heap := heap st;
     documentClickListeners := documentClickListeners st;
     timers := timers st; log := log st |}.

Definition set_lastValidValue (v : string) (st : State) : State :=
  {| bindings := bindings st; lastValidValue := v; ngModel := ngModel st;
     bordersModeClass := bordersModeClass st; data := data st;
     inputFocused := inputFocused st; inputIsTouched := inputIsTouched st;
     isValidationPopUpShown := isValidationPopUpShown st;
     preventInputBlur := preventInputBlur st;
     selectedFieldType := selectedFieldType st;
     showPopUpOnTop := showPopUpOnTop st;
     validationRules := validationRules st; heap := heap st;
     documentClickListeners := documentClickListeners st;
     timers := timers st; log := log st |}.

Definition set_ngModel (v : option NgModel) (st : State) : State :=
  {| bindings := bindings st; lastValidValue := lastValidValue st;
     ngModel := v; bordersModeClass := bordersModeClass st; data := data st;
     inputFocused := inputFocused st; inputIsTouched := inputIsTouched st;
     isValidationPopUpShown := isValidationPopUpShown st;
     preventInputBlur := preventInputBlur st;
     selectedFieldType := selectedFieldType st;
     showPopUpOnTop := showPopUpOnTop st;
     validationRules := validationRules st; heap := heap st;
     documentClickListeners := documentClickListeners st;
     timers := timers st; log := log st |}.

Definition set_bordersModeClass (v : string) (st : State) : State :=
  {| bindings := bindings st; lastValidValue := lastValidValue st;
     ngModel := ngModel st; bordersModeClass := v; data := data st;
     inputFocused := inputFocused st; inputIsTouched := inputIsTouched st;
     isValidationPopUpShown := isValidationPopUpShown st;
     preventInputBlur := preventInputBlur st;
     selectedFieldType := selectedFieldType st;
     showPopUpOnTop := showPopUpOnTop st;
     validationRules := validationRules st; heap := heap st;
     documentClickListeners := documentClickListeners st;
     timers := timers st; log := log st |}.

Definition set_data (v : string) (st : State) : State :=
  {| bindings := bindings st; lastValidValue := lastValidValue st;
     ngModel := ngModel st; bordersModeClass := bordersModeClass st;
     data := v; inputFocused := inputFocused st;
     inputIsTouched := inputIsTouched st;
     isValidationPopUpShown := isValidationPopUpShown st;
     preventInputBlur := preventInputBlur st;
     selectedFieldType := selectedFieldType st;
     showPopUpOnTop := showPopUpOnTop st;
     validationRules := validationRules st; heap := heap st;
     documentClickListeners := documentClickListeners st;
     timers := timers st; log := log st |}.

Definition set_inputFocused (v : bool) (st : State) : State :=
  {| bindings := bindings st; lastValidValue := lastValidValue st;
     ngModel := ngModel st; bordersModeClass := bordersModeClass st;
     data := data st; inputFocused := v; inputIsTouched := inputIsTouched st;
     isValidationPopUpShown := isValidationPopUpShown st;
     preventInputBlur := preventInputBlur st;
     selectedFieldType := selectedFieldType st;
     showPopUpOnTop := showPopUpOnTop st;
     validationRules := validationRules st; heap := heap st;
     documentClickListeners := documentClickListeners st;
     timers := timers st; log := log st |}.

Definition set_inputIsTouched (v : bool) (st : State) : State :=
  {| bindings := bindings st; lastValidValue := lastValidValue st;
     ngModel := ngModel st; bordersModeClass := bordersModeClass st;
     data := data st; inputFocused := inputFocused st; inputIsTouched := v;
     isValidationPopUpShown := isValidationPopUpShown st;
     preventInputBlur := preventInputBlur st;
     selectedFieldType := selectedFieldType st;
     showPopUpOnTop := showPopUpOnTop st;
     validationRules := validationRules st; heap := heap st;
     documentClickListeners := documentClickListeners st;
     timers := timers st; log := log st |}.

Definition set_isValidationPopUpShown (v : bool) (st : State) : State :=
  {| bindings := bindings st; lastValidValue := lastValidValue st;
     ngModel := ngModel st; bordersModeClass := bordersModeClass st;
     data := data st; inputFocused := inputFocused st;
     inputIsTouched := inputIsTouched st; isValidationPopUpShown := v;
     preventInputBlur := preventInputBlur st;
     selectedFieldType := selectedFieldType st;
     showPopUpOnTop := showPopUpOnTop st;
     validationRules := validationRules st; heap := heap st;
     documentClickListeners := documentClickListeners st;
     timers := timers st; log := log st |}.

Definition set_preventInputBlur (v : bool) (st : State) : State :=
  {| bindings := bindings st; lastValidValue := lastValidValue st;
     ngModel := ngModel st; bordersModeClass := bordersModeClass st;
     data := data st; inputFocused := inputFocused st;
     inputIsTouched := inputIsTouched st;
     isValidationPopUpShown := isValidationPopUpShown st;
     preventInputBlur := v; selectedFieldType := selectedFieldType st;
     showPopUpOnTop := showPopUpOnTop st;
     validationRules := validationRules st; heap := heap st;
     documentClickListeners := documentClickListeners st;
     timers := timers st; log := log st |}.

Definition set_selectedFieldType (v : string) (st : State) : State :=
  {| bindings := bindings st; lastValidValue := lastValidValue st;
     ngModel := ngModel st; bordersModeClass := bordersModeClass st;
     data := data st; inputFocused := inputFocused st;
     inputIsTouched := inputIsTouched st;
     isValidationPopUpShown := isValidationPopUpShown st;
     preventInputBlur := preventInputBlur st; selectedFieldType := v;
     showPopUpOnTop := showPopUpOnTop st;
     validationRules := validationRules st; heap := heap st;
     documentClickListeners := documentClickListeners st;
     timers := timers st; log := log st |}.

Definition set_showPopUpOnTop (v : bool) (st : State) : State :=
  {| bindings := bindings st; lastValidValue := lastValidValue st;
     ngModel := ngModel st; bordersModeClass := bordersModeClass st;
     data := data st; inputFocused := inputFocused st;
     inputIsTouched := inputIsTouched st;
     isValidationPopUpShown := isValidationPopUpShown st;
     preventInputBlur := preventInputBlur st;
     selectedFieldType := selectedFieldType st; showPopUpOnTop := v;
     validationRules := validationRules st; heap := heap st;
     documentClickListeners := documentClickListeners st;
     timers := timers st; log := log st |}.

Definition set_validationRules (v : nullable (list loc)) (st : State) : State :=
  {| bindings := bindings st; lastValidValue := lastValidValue st;
     ngModel := ngModel st; bordersModeClass := bordersModeClass st;
     data := data st; inputFocused := inputFocused st;
     inputIsTouched := inputIsTouched st;
     isValidationPopUpShown := isValidationPopUpShown st;
     preventInputBlur := preventInputBlur st;
     selectedFieldType := selectedFieldType st;
     showPopUpOnTop := showPopUpOnTop st; validationRules := v;
     heap := heap st; documentClickListeners := documentClickListeners st;
     timers := timers st; log := log st |}.

Definition set_heap (v : list Rule) (st : State) : State :=
  {| bindings := bindings st; lastValidValue := lastValidValue st;
     ngModel := ngModel st; bordersModeClass := bordersModeClass st;
     data := data st; inputFocused := inputFocused st;
     inputIsTouched := inputIsTouched st;
     isValidationPopUpShown := isValidationPopUpShown st;
     preventInputBlur := preventInputBlur st;
     selectedFieldType := selectedFieldType st;
     showPopUpOnTop := showPopUpOnTop st;
     validationRules := validationRules st; heap := v;
     documentClickListeners := documentClickListeners st;
     timers := timers st; log := log st |}.

Definition set_documentClickListeners (v : nat) (st : State) : State :=
  {| bindings := bindings st; lastValidValue := lastValidValue st;
     ngModel := ngModel st; bordersModeClass := bordersModeClass st;
     data := data st; inputFocused := inputFocused st;
     inputIsTouched := inputIsTouched st;
     isValidationPopUpShown := isValidationPopUpShown st;
     preventInputBlur := preventInputBlur st;
     selectedFieldType := selectedFieldType st;
     showPopUpOnTop := showPopUpOnTop st;
     validationRules := validationRules st; heap := heap st;
     documentClickListeners := v; timers := timers st; log := log st |}.

Definition set_timers (v : list Task) (st : State) : State :=
  {| bindings := bindings st; lastValidValue := lastValidValue st;
     ngModel := ngModel st; bordersModeClass := bordersModeClass st;
     data := data st; inputFocused := inputFocused st;
     inputIsTouched := inputIsTouched st;
     isValidationPopUpShown := isValidationPopUpShown st;
     preventInputBlur := preventInputBlur st;
     selectedFieldType := selectedFieldType st;
     showPopUpOnTop := showPopUpOnTop st;
     validationRules := validationRules st; heap := heap st;
     documentClickListeners := documentClickListeners st; timers := v;
     log := log st |}.

Definition set_log (v : list Effect) (st : State) : State :=
  {| bindings := bindings st; lastValidValue := lastValidValue st;
     ngModel := ngModel st; bordersModeClass := bordersModeClass st;
     data := data st; inputFocused := inputFocused st;
     inputIsTouched := inputIsTouched st;
     isValidationPopUpShown := isValidationPopUpShown st;
     preventInputBlur := preventInputBlur st;
     selectedFieldType := selectedFieldType st;
     showPopUpOnTop := showPopUpOnTop st;
     validationRules := validationRules st; heap := heap st;
     documentClickListeners := documentClickListeners st;
     timers := timers st; log := v |}.

(** A handler either runs to its end or is left by a [TypeError]; the
    changes made up to that point stay. *)
Inductive Completion :=
| Normal (st : State)
| Throw (st : State).

Definition stateOf (c : Completion) : State :=
  match c with
  | Normal st | Throw st => st
  end.

Definition andThen (c : Completion) (k : State -> Completion) : Completion :=
  match c with
  | Normal st => k st
  | Throw st => Throw st
  end.

Definition emit (e : Effect) (st : State) : State := set_log (log st ++ [e]) st.

Definition defer (t : Task) (st : State) : State :=
  set_timers (timers st ++ [t]) st.

(** ** Validation rules *)

(** lodash iterates [null] and [undefined] as the empty collection. *)
Definition rules (st : State) : list loc := defaultTo (validationRules st) [].

(** [lodash.forEach] over an array of rule objects; the iteratees of this
    component return [undefined], so the loop never stops early.  Every
    reference of an array is live; a reference outside the store is passed
    over. *)
Fixpoint forEach (f : loc -> Rule -> State -> State) (ls : list loc)
    (st : State) : State :=
  match ls with
  | [] => st
  | l :: ls' =>
      match heap st !! l with
      | Some rule => forEach f ls' (f l rule st)
      | None => forEach f ls' st
      end
  end.

(** [rule.isValid = v] on the object at [l]. *)
Definition assignIsValid (l : loc) (v : JsVal) (st : State) : State :=
  set_heap (alter (set_isValid v) l (heap st)) st.

(** The right-hand side of the assignment in [checkPatternsValidity]. *)
Definition evaluate (st : State) (value : string) (rule : Rule) : JsVal :=
  match pattern rule with
  | PFunction f => f value (inputName (bindings st)) (formObject (bindings st))
  | PRegExp re => JBool (test re value)
  end.

(** The call that the evaluation of a rule makes. *)
Definition evaluation (st : State) (value : string) (l : loc) (rule : Rule)
    : Effect :=
  match pattern rule with
  | PFunction _ =>
      PatternCall l value (inputName (bindings st)) (formObject (bindings st))
  | PRegExp _ => PatternTest l value
  end.

(** [lodash.some(ctrl.validationRules, ['isValid', false])]: the property is
    compared with [===]. *)
Definition hasInvalidRule (st : State) : bool :=
  existsb (fun l => match heap st !! l with
                    | Some rule => isFalse (isValid rule)
                    | None => false
                    end) (rules st).

(** The function that [checkPatternsValidity] applies to every rule. *)
Definition checkRule (value : string) (l : loc) (rule : Rule) (s : State)
    : State :=
  assignIsValid l (evaluate s value rule) (emit (evaluation s value l rule) s).

Definition checkPatternsValidity (value : string) (st : State) : State * bool :=
  let st' := forEach (checkRule value) (rules st) st in
  (st', negb (hasInvalidRule st')).

(** The function that [resetPatternsValidity] applies to every rule. *)
Definition resetRule (l : loc) (rule : Rule) (s : State) : State :=
  assignIsValid l (JBool true) s.

Definition resetPatternsValidity (st : State) : State :=
  forEach resetRule (rules st) st.

(** [ngModel.$validators.validationRules], installed by [postLink]. *)
Definition validationRulesValidator (modelValue : string) (st : State)
    : State * bool :=
  if negb (is_true (validationIsRequired (bindings st)))
     && String.eqb (data st) ""
  then (resetPatternsValidity st, true)
  else checkPatternsValidity modelValue st.

(** ** The framework's [NgModelController]

    The framework is not part of the component.  The operations that the
    controller calls ([$validate], [$setViewValue], [$commitViewValue]) are
    modelled for a text input without parsers and with the model options the
    component installs ([allowInvalid: true]): the model is written, and
    the change listener is run, before the validators.  With
    [allowInvalid: false], which a host may bind and [onInit] keeps, the
    framework validates first and writes [undefined] for a value that fails;
    this regime is not modelled, and the statements that depend on the order
    assume [allowsInvalid]. *)

Definition set_ng_valid (b : bool) (nm : NgModel) : NgModel :=
  {| ng_viewValue := ng_viewValue nm;
     ng_lastCommittedViewValue := ng_lastCommittedViewValue nm;
     ng_modelValue := ng_modelValue nm;
     ng_dirty := ng_dirty nm;
     ng_valid := b;
     ng_validators := ng_validators nm |}.

Definition set_ng_viewValue (v : string) (nm : NgModel) : NgModel :=
  {| ng_viewValue := v;
     ng_lastCommittedViewValue := ng_lastCommittedViewValue nm;
     ng_modelValue := ng_modelValue nm;
     ng_dirty := ng_dirty nm;
     ng_valid := ng_valid nm;
     ng_validators := ng_validators nm |}.

Definition set_ng_modelValue (v : string) (nm : NgModel) : NgModel :=
  {| ng_viewValue := ng_viewValue nm;
     ng_lastCommittedViewValue := ng_lastCommittedViewValue nm;
     ng_modelValue := v;
     ng_dirty := ng_dirty nm;
     ng_valid := ng_valid nm;
     ng_validators := ng_validators nm |}.

(** The view value becomes the committed one and the model value; the field
    is dirty from now on. *)
Definition committed (nm : NgModel) : NgModel :=
  {| ng_viewValue := ng_viewValue nm;
     ng_lastCommittedViewValue := ng_viewValue nm;
     ng_modelValue := ng_viewValue nm;
     ng_dirty := true;
     ng_valid := ng_valid nm;
     ng_validators := ng_validators nm |}.

(** The model value is rendered: it becomes the view value. *)
Definition rendered (v : string) (nm : NgModel) : NgModel :=
  {| ng_viewValue := v;
     ng_lastCommittedViewValue := v;
     ng_modelValue := v;
     ng_dirty := ng_dirty nm;
     ng_valid := ng_valid nm;
     ng_validators := ng_validators nm |}.

(** [$$runValidators]: every validator runs, the component's own among them;
    the model is valid when all of them accept. *)
Definition runValidators (modelValue : string) (st : State) : State :=
  let (st', own) := validationRulesValidator modelValue st in
  match ngModel st' with
  | Some nm =>
      let others := forallb (fun v => v modelValue) (ng_validators nm) in
      set_ngModel (Some (set_ng_valid (own && others) nm)) st'
  | None => st'
  end.

(** [ngModel.$validate()]. *)
Definition validate (st : State) : Completion :=
  match ngModel st with
  | Some nm => Normal (runValidators (ng_modelValue nm) st)
  | None => Throw st
  end.

(** [ngModel.$valid] and [ngModel.$invalid]. *)
Definition valid (st : State) : option bool := ng_valid <$> ngModel st.
Definition invalid (st : State) : option bool := negb <$> valid st.

(** [ngModel.$setViewValue(value)]: the commit is debounced. *)
Definition setViewValue (value : string) (st : State) : Completion :=
  match ngModel st with
  | Some nm => Normal (set_ngModel (Some (set_ng_viewValue value nm)) st)
  | None => Throw st
  end.

(** ** Public and private methods *)

(** White space as [parseInt] skips it, among the characters below 256. *)
Definition isWhiteSpace (c : ascii) : bool :=
  let n := nat_of_ascii c in
  existsb (Nat.eqb n) [9; 10; 11; 12; 13; 32; 160]%nat.

Fixpoint skipWhiteSpace (s : string) : string :=
  match s with
  | String c s' => if isWhiteSpace c then skipWhiteSpace s' else s
  | EmptyString => s
  end.

Definition digitValue (c : ascii) : option Z :=
  let n := Z.of_nat (nat_of_ascii c) in
  if (48 <=? n) && (n <=? 57) then Some (n - 48)
  else if (97 <=? n) && (n <=? 122) then Some (n - 87)
  else if (65 <=? n) && (n <=? 90) then Some (n - 55)
  else None.

(** The digits of the longest prefix in the radix, most significant first
    folded into [acc]; [None] while no digit has been read. *)
Fixpoint parseDigits (radix : Z) (s : string) (acc : option Z) : option Z :=
  match s with
  | String c s' =>
      match digitValue c with
      | Some d =>
          if d <? radix
          then parseDigits radix s' (Some (default 0 acc * radix + d))
          else acc
      | None => acc
      end
  | EmptyString => acc
  end.

(** [Number.parseInt(string)] without a radix: leading white space, a sign,
    an optional [0x] prefix, then the longest run of digits; [None] is [NaN].
    [undefined] is first turned into the text "undefined".  The result is
    the integer that the digits denote: it is the number that JavaScript
    computes while it is below 2^53 in absolute value, beyond which
    JavaScript rounds. *)
Definition parseInt (input : option string) : option Z :=
  let s := skipWhiteSpace (default "undefined"%string input) in
  let (sign, s1) :=
    match s with
    | String "-" s' => (-1, s')
    | String "+" s' => (1, s')
    | _ => (1, s)
    end in
  let (radix, s2) :=
    match s1 with
    | String "0" (String "x" s') | String "0" (String "X" s') => (16, s')
    | _ => (10, s1)
    end in
  Z.mul sign <$> parseDigits radix s2 None.

(** [Number.prototype.toString] on an integer (below 2^53 in absolute value,
    where numbers are exact) or on [NaN]. *)
Definition toString (n : option Z) : string :=
  match n with
  | Some z => NilZero.string_of_int (Z.to_int z)
  | None => "NaN"
  end.

(** [maxLength <= 0 ? null : (maxLength - currentLength).toString()]; a
    comparison with [NaN] is false and arithmetic on [NaN] gives [NaN].
    [None] is [null]. *)
Definition getRemainingCharactersCount (st : State) : option string :=
  let maxLength := parseInt (validationMaxLength (bindings st)) in
  let currentLength := Z.of_nat (String.length (data st)) in
  if default false ((fun m => m <=? 0) <$> maxLength)
  then None
  else Some (toString ((fun m => m - currentLength) <$> maxLength)).

Definition isCounterVisible (st : State) : bool :=
  negb (is_true (isDisabled (bindings st)))
  && negb (is_true (onlyValidCharacters (bindings st)))
  && negb (is_true (hideCounter (bindings st)))
  && negb (is_true (readOnly (bindings st)))
  && bool_decide (is_Some (validationMaxLength (bindings st))).

(** [lodash.get(object, path)] on an object that may be missing. *)
Definition get {A} (object : option A) (path : A -> bool) : JsVal :=
  match object with
  | Some o => JBool (path o)
  | None => JUndefined
  end.

Definition isFieldInvalid (st : State) : JsVal :=
  if is_true (onlyValidCharacters (bindings st)) then JBool false
  else js_and (js_or (get (formObject (bindings st)) submitted)
                     (get (ngModel st) ng_dirty))
              (get (ngModel st) (fun nm => negb (ng_valid nm))).

Definition onChange (st : State) : Completion :=
  andThen (validate st) (fun st1 =>
    if is_true (isDataRevert (bindings st1)) then
      match valid st1 with
      | Some true => Normal (set_lastValidValue (data st1) st1)
      | Some false => Normal st1
      | None => Throw st1
      end
    else
      Normal (emit (UpdateDataCallback (data st1)
                      (updateDataField (bindings st1))) st1)).

(** [ngModel.$commitViewValue()]: nothing happens unless the view value
    differs from the committed one; otherwise it is committed, written to
    [ctrl.data] when it differs from the model value, and validated.  As the
    comments of [onBlur] say, writing the model triggers [ngChange] for the
    input, whose listener is [onChange]. *)
Definition commitViewValue (st : State) : Completion :=
  match ngModel st with
  | None => Throw st
  | Some nm =>
      if String.eqb (ng_lastCommittedViewValue nm) (ng_viewValue nm)
      then Normal st
      else
        let modelValue := ng_viewValue nm in
        let st1 := set_ngModel (Some (committed nm)) st in
        andThen
          (if String.eqb modelValue (ng_modelValue nm) then Normal st1
           else onChange (set_data modelValue st1))
          (fun st2 => Normal (runValidators modelValue st2))
  end.

Definition setOrRevertInputValue (st : State) : Completion :=
  match invalid st with
  | Some true => Normal (set_data (lastValidValue st) st)
  | Some false =>
      Normal (emit (UpdateDataCallback (data st)
                      (updateDataField (bindings st))) st)
  | None => Throw st
  end.

Definition onBlur (event : DomEvent) (st : State) : Completion :=
  if preventInputBlur st then
    Normal (emit (TargetFocus event)
              (set_inputFocused true (set_preventInputBlur false st)))
  else
    andThen (commitViewValue (set_inputFocused false st)) (fun st1 =>
    andThen (if is_true (isDataRevert (bindings st1))
             then setOrRevertInputValue st1 else Normal st1) (fun st2 =>
    Normal (emit (ItemBlurCallback event (data st2)
                    (inputName (bindings st2))) st2))).

Definition clearInputField (st : State) : Completion :=
  if String.eqb (selectedFieldType st) "schedule" then
    andThen (setViewValue "" st) commitViewValue
  else
    onChange (set_data "" st).

Definition onFocus (event : DomEvent) (st : State) : State :=
  let st1 := set_inputFocused true st in
  let st2 := match rules st1 with
             | [] => st1
             | _ :: _ => set_inputIsTouched true st1
             end in
  emit (ItemFocusCallback event (data st2) (inputName (bindings st2))) st2.

Definition onKeyDown (event : DomEvent) (st : State) : State :=
  if keyCode event =? ENTER then defer TEnter st else st.

(** [$document.on('click', handleDocumentClick)] adds one attachment;
    [$document.off('click', handleDocumentClick)] removes every attachment
    of the handler (the component runs on jQuery). *)
Definition documentOn (st : State) : State :=
  set_documentClickListeners (S (documentClickListeners st)) st.
Definition documentOff (st : State) : State :=
  set_documentClickListeners 0%nat st.

Definition toggleValidationPopUp (st : State) : State :=
  match rules st with
  | [] => st
  | _ :: _ =>
      let st1 := set_isValidationPopUpShown (negb (isValidationPopUpShown st)) st in
      if isValidationPopUpShown st1 then
        defer TPlacePopUp (set_showPopUpOnTop false (documentOn st1))
      else
        documentOff st1
  end.

Definition handleDocumentClick (event : DomEvent) (st : State) : State :=
  let st1 := if negb (targetInside event)
             then set_isValidationPopUpShown false st else st in
  if negb (isValidationPopUpShown st1) then documentOff st1 else st1.

(** ** Lifecycle hooks *)

Definition BORDER_MODES : list string := ["always"; "hover"; "focus"]%string.
Definition FIELD_TYPES : list string :=
  ["input"; "password"; "textarea"; "schedule"]%string.
Definition BORDERS_CLASS_BASE : string := "borders-".
Definition defaultBorderMode : string := "always".

(** [lodash.includes(collection, value)] on the values of a table of text
    constants; a missing value is in none. *)
Definition includes (collection : list string) (value : option string) : bool :=
  match value with
  | Some v => existsb (String.eqb v) collection
  | None => false
  end.

(** [lodash.defaultsDeep(options, defaultInputModelOptions)]: a missing entry
    is filled, an object is filled entry by entry, anything else stays. *)
Definition defaultsDeep (o : ModelOptions) : ModelOptions :=
  {| updateOn := orDefault "default blur"%string (updateOn o);
     debounce :=
       match debounce o with
       | None => Some (DebounceMap (Some 250) (Some 0))
       | Some (DebounceMap d s) =>
           Some (DebounceMap (orDefault 250 d) (orDefault 0 s))
       | Some (DebounceNumber ms) => Some (DebounceNumber ms)
       end;
     allowInvalid := orDefault true (allowInvalid o) |}.

(** The [lodash.defaults(ctrl, {...})] of [onInit]. *)
Definition defaults (st : State) : Bindings :=
  let b := bindings st in
  {| autoComplete := orDefault "off"%string (autoComplete b);
     bordersMode := orDefault defaultBorderMode (bordersMode b);
     fieldType := orDefault (selectedFieldType st) (fieldType b);
     formObject := formObject b;
     hideCounter := orDefault false (hideCounter b);
     inputModelOptions :=
       orDefault {| updateOn := None; debounce := None; allowInvalid := None |}
                 (inputModelOptions b);
     inputName := inputName b;
     isClearIcon := orDefault false (isClearIcon b);
     isDataRevert := orDefault false (isDataRevert b);
     isDisabled := orDefault false (isDisabled b);
     isFocused := isFocused b;
     onlyValidCharacters := orDefault false (onlyValidCharacters b);
     readOnly := orDefault false (readOnly b);
     spellcheck := orDefault true (spellcheck b);
     tabindex := orDefault "0"%string (tabindex b);
     tooltip :=
       orDefault {| text := ""; placement := "auto"; duration := "200" |}
                 (tooltip b);
     trim := orDefault true (trim b);
     updateDataField := orDefault (inputName b) (updateDataField b);
     validationIsRequired := orDefault false (validationIsRequired b);
     validationMaxLength := validationMaxLength b |}.

Definition onInit (st : State) : Completion :=
  let st1 := set_bindings (defaults st) st in
  let st2 :=
    if includes FIELD_TYPES (fieldType (bindings st1))
    then set_selectedFieldType (default ""%string (fieldType (bindings st1))) st1
    else st1 in
  let st3 :=
    if negb (includes BORDER_MODES (bordersMode (bindings st2)))
    then set_bindings (with_bordersMode (Some defaultBorderMode) (bindings st2)) st2
    else st2 in
  let st4 :=
    set_bordersModeClass
      (BORDERS_CLASS_BASE ++ default ""%string (bordersMode (bindings st3))) st3 in
  Normal
    (set_bindings
       (with_inputModelOptions
          (defaultsDeep <$> inputModelOptions (bindings st4)) (bindings st4))
       st4).

Definition postLink (st : State) : State := defer TLink st.

(** The [changes] object handed to [$onChanges]: one entry per binding that
    changed. *)
Module changes.
Record change (A : Type) := { currentValue : nullable A; isFirstChange : bool }.
Arguments currentValue {A} c.
Arguments isFirstChange {A} c.
Record t := {
  inputValue : option (change string);
  isFocused : option (change bool);
  validationRules : option (change (list loc))
}.
End changes.

(** [angular.copy] on an array of rule objects: every object met for the
    first time is cloned into a new object, an object met again is mapped to
    its clone ([memo] pairs the objects met with their clones).  An element
    that is no reference into the store is copied as it is. *)
Fixpoint cloneOf (memo : list (loc * loc)) (l : loc) : option loc :=
  match memo with
  | [] => None
  | (s, d) :: memo' => if Nat.eqb s l then Some d else cloneOf memo' l
  end.

Fixpoint copy (src : list loc) (memo : list (loc * loc)) (h : list Rule)
    : list loc * list Rule :=
  match src with
  | [] => ([], h)
  | l :: src' =>
      match cloneOf memo l with
      | Some d => let (ds, h') := copy src' memo h in (d :: ds, h')
      | None =>
          match h !! l with
          | Some rule =>
              let d := length h in
              let (ds, h') := copy src' ((l, d) :: memo) (h ++ [rule]) in
              (d :: ds, h')
          | None => let (ds, h') := copy src' memo h in (l :: ds, h')
          end
      end
  end.

(** The three blocks of [onChanges], one per binding that is watched. *)
Definition inputValueChanged (c : changes.t) (st : State) : State :=
  match changes.inputValue c with
  | Some ch =>
      let st' := set_data (defaultTo (changes.currentValue ch) ""%string) st in
      set_lastValidValue (data st') st'
  | None => st
  end.

Definition isFocusedChanged (c : changes.t) (st : State) : State :=
  match changes.isFocused c with
  | Some ch =>
      let st' := set_inputFocused (defaultTo (changes.currentValue ch) false) st in
      if negb (changes.isFirstChange ch) then defer TFocusField st' else st'
  | None => st
  end.

Definition validationRulesChanged (c : changes.t) (st : State) : Completion :=
  match changes.validationRules c with
  | Some ch =>
      let (ds, h) := copy (defaultTo (changes.currentValue ch) []) [] (heap st) in
      let st' := set_validationRules (Val ds) (set_heap h st) in
      if negb (String.eqb (data st') "") && negb (changes.isFirstChange ch)
      then validate st'
      else Normal st'
  | None => Normal st
  end.

Definition onChanges (c : changes.t) (st : State) : Completion :=
  validationRulesChanged c (isFocusedChanged c (inputValueChanged c st)).

(** The [animationend] listeners of the window are not the component's and
    are not modelled. *)
Definition onDestroy (st : State) : State := documentOff st.

(** ** Deferred work and the event loop *)

(** What the browser supplies when a deferred task runs: the controller that
    [fieldElement.controller('ngModel')] returns and the geometry of the
    window and of the pop-up.  Delays are not modelled: any pending task may
    be the next to run. *)
Record Browser := {
  fieldController : NgModel;
  innerHeight : Z;
  popUpTop : Z;
  popUpOuterHeight : Z
}.

(** [fieldElement.focus()]: before the field is linked [fieldElement] is the
    empty object, which has no such method. *)
Definition focusField (st : State) : Completion :=
  match ngModel st with
  | Some _ => Normal (emit FieldFocus st)
  | None => Throw st
  end.

Definition runTask (t : Task) (env : Browser) (st : State) : Completion :=
  match t with
  | TLink =>
      andThen (validate (set_ngModel (Some (fieldController env)) st)) (fun st1 =>
      Normal (if is_true (isFocused (bindings st1))
              then defer TFocusField st1 else st1))
  | TFocusField => focusField st
  | TPlacePopUp =>
      andThen (focusField st) (fun st1 =>
      Normal (set_showPopUpOnTop
                (innerHeight env - popUpTop env - popUpOuterHeight env <? 0)
                (set_inputFocused true st1)))
  | TEnter => Normal (emit EnterCallback st)
  end.

(** The model watch of the framework: when [ctrl.data] was assigned, the next
    digest takes it as the model value; when it differs from the view value
    as well, it is rendered and validated. *)
Definition digest (st : State) : State :=
  match ngModel st with
  | Some nm =>
      if String.eqb (data st) (ng_modelValue nm) then st
      else if String.eqb (ng_viewValue nm) (data st)
      then set_ngModel (Some (set_ng_modelValue (data st) nm)) st
      else runValidators (data st)
             (set_ngModel (Some (rendered (data st) nm)) st)
  | None => st
  end.

(** Everything that can happen to a component, one at a time. *)
Inductive Event :=
| EOnChanges (c : changes.t)
| EOnInit
| EPostLink
| EOnDestroy
| EClearInputField
| EBlur (event : DomEvent)
| EChange
| EFocus (event : DomEvent)
| EKeyDown (event : DomEvent)
| EToggleValidationPopUp
| EDocumentClick (event : DomEvent)
| ETimer (i : nat) (env : Browser)
| EInput (value : string)
| ECommit
| EDigest
| EBind (c : changes.t).

(** The framework assigns a changed one-way binding to [ctrl] when the watch
    of the binding fires: [ctrl.isFocused] gets the new value and
    [ctrl.validationRules] gets the array of the host itself.  [$onChanges]
    runs after that: at once for the first change, at the end of the digest
    for a later one.  [ctrl.inputValue] is assigned as well, but the
    controller reads the bound value from [changes] only.  The other
    attributes are taken as they were when the controller was built: a later
    change of one of them is not modelled. *)
Definition assigned (c : changes.t) (st : State) : State :=
  let st1 :=
    match changes.isFocused c with
    | Some ch =>
        set_bindings
          (with_isFocused
             (match changes.currentValue ch with
              | Val b => Some b
              | Undefined | Null => None
              end) (bindings st)) st
    | None => st
    end in
  match changes.validationRules c with
  | Some ch => set_validationRules (changes.currentValue ch) st1
  | None => st1
  end.

Definition step (e : Event) (st : State) : State :=
  match e with
  | EOnChanges c => stateOf (onChanges c (assigned c st))
  | EOnInit => stateOf (onInit st)
  | EPostLink => postLink st
  | EOnDestroy => onDestroy st
  | EClearInputField => stateOf (clearInputField st)
  | EBlur event => stateOf (onBlur event st)
  | EChange => stateOf (onChange st)
  | EFocus event => onFocus event st
  | EKeyDown event => onKeyDown event st
  | EToggleValidationPopUp => toggleValidationPopUp st
  | EDocumentClick event =>
      Nat.iter (documentClickListeners st) (handleDocumentClick event) st
  | ETimer i env =>
      match timers st !! i with
      | Some t => stateOf (runTask t env (set_timers (delete i (timers st)) st))
      | None => st
      end
  | EInput value => stateOf (setViewValue value st)
  | ECommit => stateOf (commitViewValue st)
  | EDigest => digest st
  | EBind c => assigned c st
  end.

Definition run (es : list Event) (st : State) : State :=
  fold_left (fun s e => step e s) es st.

(** The state that the constructor leaves, for the attributes [b] and a store
    [h] that holds the objects of the host. *)
Definition controller (b : Bindings) (h : list Rule) : State :=
  {| bindings := b;
     lastValidValue := "";
     ngModel := None;
     bordersModeClass := "";
     data := "";
     inputFocused := false;
     inputIsTouched := false;
     isValidationPopUpShown := false;
     preventInputBlur := false;
     selectedFieldType := "input";
     showPopUpOnTop := false;
     validationRules := Undefined;
     heap := h;
     documentClickListeners := 0;
     timers := [];
     log := [] |}.

Definition reachable (st : State) : Prop :=
  exists b h es, st = run es (controller b h).

(** ** A field to try the statements on

    A host that binds two rules, [/^[A-Z]+$/] and a function that rejects the
    name of the field, and the value "ABC". *)

Definition isUpperCase (c : ascii) : bool :=
  let n := nat_of_ascii c in (65 <=? n)%nat && (n <=? 90)%nat.

Fixpoint allUpperCase (s : string) : bool :=
  match s with
  | EmptyString => true
  | String c s' => isUpperCase c && allUpperCase s'
  end.

Definition upperCase : RegExp :=
  {| source := "^[A-Z]+$";
     test := fun s => negb (String.eqb s "") && allUpperCase s |}.

Definition notTheFieldName : Pattern :=
  PFunction (fun value fieldName _ => JBool (negb (String.eqb value fieldName))).

Definition hostRules : list Rule :=
  [ {| name := Some "upper"%string; label := "Upper case letters only";
       pattern := PRegExp upperCase; isValid := JUndefined |};
    {| name := None; label := "Not the name of the field";
       pattern := notTheFieldName; isValid := JUndefined |} ].

Definition noAttributes : Bindings :=
  {| autoComplete := None; bordersMode := None; fieldType := None;
     formObject := None; hideCounter := None; inputModelOptions := None;
     inputName := "title"; isClearIcon := None; isDataRevert := None;
     isDisabled := None; isFocused := None; onlyValidCharacters := None;
     readOnly := None; spellcheck := None; tabindex := None; tooltip := None;
     trim := None; updateDataField := None; validationIsRequired := None;
     validationMaxLength := None |}.

Definition firstChanges (value : string) : changes.t :=
  {| changes.inputValue :=
       Some {| changes.currentValue := Val value; changes.isFirstChange := true |};
     changes.isFocused := None;
     changes.validationRules :=
       Some {| changes.currentValue := Val [0; 1]%nat;
               changes.isFirstChange := true |} |}.

Definition pristineField (value : string) : NgModel :=
  {| ng_viewValue := value; ng_lastCommittedViewValue := value;
     ng_modelValue := value; ng_dirty := false; ng_valid := true;
     ng_validators := [] |}.

Definition browser (value : string) : Browser :=
  {| fieldController := pristineField value; innerHeight := 600;
     popUpTop := 100; popUpOuterHeight := 80 |}.

(** The component with the attributes [b], rendered with the value [value]. *)
Definition rendering (b : Bindings) (value : string) : State :=
  run [EOnChanges (firstChanges value); EOnInit; EPostLink;
       ETimer 0 (browser value)]
      (controller b hostRules).

Definition anEvent : DomEvent :=
  {| keyCode := 9; targetInside := true; eventId := 1 |}.

(** A field in revert mode whose value "ABC" was replaced by "abc". *)
Definition lowered : State :=
  run [EInput "abc"; ECommit]
      (rendering (with_isDataRevert (Some true) noAttributes) "ABC").

(** The same field while the template asks to keep the focus. *)
Definition heldBack : State := set_preventInputBlur true lowered.


(** A configuration with a field type and a borders mode that do not exist. *)
Definition malformed : State :=
  controller
    (with_fieldType (Some "checkbox"%string)
       (with_bordersMode (Some "never"%string) noAttributes)) [].

(** ** Vocabulary of the statements *)

(** A state without its store and its log: what a pass over the rules leaves
    alone. *)
Definition erase (st : State) : State := set_heap [] (set_log [] st).

(** The rule objects that [ctrl.validationRules] refers to, in order. *)
Definition ruleObjects (st : State) : list (loc * Rule) :=
  omap (fun l => pair l <$> heap st !! l) (rules st).

Definition isBoolean (v : JsVal) : bool :=
  match v with
  | JBool _ => true
  | _ => false
  end.

(** What a rule object is, apart from its validity flag. *)
Definition content (rule : Rule) : option string * string * Pattern :=
  (name rule, label rule, pattern rule).

(** What a handler that only validates, commits and calls back leaves alone:
    the attributes, the array of rules, the pop-up and its listener, and every
    object of the store that the array of rules does not refer to. *)
Record quiet (st st' : State) : Prop := {
  quiet_bindings : bindings st' = bindings st;
  quiet_validationRules : validationRules st' = validationRules st;
  quiet_shown : isValidationPopUpShown st' = isValidationPopUpShown st;
  quiet_listeners : documentClickListeners st' = documentClickListeners st;
  quiet_fieldType : selectedFieldType st' = selectedFieldType st;
  quiet_length : length (heap st') = length (heap st);
  quiet_heap : forall l, l ∉ rules st -> heap st' !! l = heap st !! l;
  quiet_content : forall l, content <$> heap st' !! l = content <$> heap st !! l
}.

(** The calls that evaluating a rule makes. *)
Definition isEvaluation (e : Effect) : bool :=
  match e with
  | PatternCall _ _ _ _ | PatternTest _ _ => true
  | _ => false
  end.

(** A field with a character counter. *)
Definition counterField (maxLength : option string) (value : string) : State :=
  set_data value (controller (with_validationMaxLength maxLength noAttributes) []).

(** The objects that existed when the store had [n] objects are as they are
    in [h0], and the array of rules refers to none of them. *)
Definition untouched (n : nat) (h0 : list Rule) (st : State) : Prop :=
  (n <= length (heap st))%nat
  /\ Forall (fun l => (n <= l)%nat) (rules st)
  /\ forall l, (l < n)%nat -> heap st !! l = h0 !! l.

(** The discipline of the document-level listener: [handleDocumentClick] is
    attached at most once, and only while the pop-up is shown. *)
Definition popUpListener (st : State) : Prop :=
  documentClickListeners st = 0%nat
  \/ (documentClickListeners st = 1%nat /\ isValidationPopUpShown st = true).

(** What validating and committing may change: the value, the snapshot of
    the last valid value, the model controller, the store and the log. *)
Definition modelOnly (st st' : State) : Prop :=
  st' = set_data (data st')
          (set_lastValidValue (lastValidValue st')
             (set_ngModel (ngModel st')
                (set_heap (heap st') (set_log (log st') st)))).

(** The Enter key. *)
Definition enterKey : DomEvent :=
  {| keyCode := 13; targetInside := true; eventId := 2 |}.

(** The example field while "abc" has been typed but not committed yet. *)
Definition typing : State := step (EInput "abc") (rendering noAttributes "ABC").

(** A later change of the [isFocused] binding alone, here to [false]. *)
Definition focusRequest : changes.t :=
  {| changes.inputValue := None;
     changes.isFocused :=
       Some {| changes.currentValue := Val false;
               changes.isFirstChange := false |};
     changes.validationRules := None |}.

(** The assignment of a binding by the framework, as opposed to what the
    component does itself. *)
Definition isBind (e : Event) : bool :=
  match e with
  | EBind _ => true
  | _ => false
  end.

(** The model options in force let an invalid value reach the model
    ([allowInvalid: true], which [onInit] installs unless the host says
    otherwise): the regime that the model of the framework covers. *)
Definition allowsInvalid (st : State) : bool :=
  match inputModelOptions (bindings st) with
  | Some o => is_true (allowInvalid o)
  | None => false
  end.






(** A host whose second rule is a function that returns nothing. *)
Definition returnsNothing : Pattern := PFunction (fun _ _ _ => JUndefined).

Definition carelessRules : list Rule :=
  [ {| name := Some "upper"%string; label := "Upper case letters only";
       pattern := PRegExp upperCase; isValid := JUndefined |};
    {| name := None; label := "Anything";
       pattern := returnsNothing; isValid := JUndefined |} ].

(** The component of that host, rendered with the value "ABC". *)
Definition careless : State :=
  run [EOnChanges (firstChanges "ABC"); EOnInit; EPostLink;
       ETimer 0 (browser "ABC")]
      (controller noAttributes carelessRules).




(** * Properties *)

(** ** Writing validity flags *)

(** Two states that agree up to the store and the log. *)
Lemma erase_eq st st' :
  erase st' = erase st -> st' = set_heap (heap st') (set_log (log st') st).
Proof. destruct st, st'. cbv. intros [=]. subst. reflexivity. Qed.

Lemma evaluate_pattern st st' value r r' :
  bindings st = bindings st' -> pattern r = pattern r' ->
  evaluate st value r = evaluate st' value r'.
Proof. unfold evaluate. intros -> ->. reflexivity. Qed.

Lemma evaluation_pattern st st' value l r r' :
  bindings st = bindings st' -> pattern r = pattern r' ->
  evaluation st value l r = evaluation st' value l r'.
Proof. unfold evaluation. intros -> ->. reflexivity. Qed.

Section ForEach.
(** A pass that stores [g rule] in every rule and logs [e l rule], where
    neither depends on the flag being overwritten. *)
Variable b : Bindings.
Variable g : Rule -> JsVal.
Variable e : loc -> Rule -> list Effect.
Variable f : loc -> Rule -> State -> State.
Hypothesis g_pattern : forall r r', pattern r = pattern r' -> g r = g r'.
Hypothesis e_pattern : forall l r r', pattern r = pattern r' -> e l r = e l r'.
Hypothesis f_spec : forall l r s,
  bindings s = b ->
  f l r s = assignIsValid l (g r) (set_log (log s ++ e l r) s).

Lemma forEach_erase ls : forall st,
  bindings st = b -> erase (forEach f ls st) = erase st.
Proof.
  induction ls as [|a ls IH]; intros st Hb; simpl; [reflexivity|].
  destruct (heap st !! a) as [r|]; [|auto].
  rewrite IH by (rewrite f_spec by assumption; exact Hb).
  rewrite f_spec by assumption. reflexivity.
Qed.

Lemma forEach_length ls : forall st,
  bindings st = b -> length (heap (forEach f ls st)) = length (heap st).
Proof.
  induction ls as [|a ls IH]; intros st Hb; cbn [forEach]; [reflexivity|].
  destruct (heap st !! a) as [r|]; [|auto].
  rewrite IH by (rewrite f_spec by assumption; exact Hb).
  rewrite f_spec by assumption. cbn. apply length_alter.
Qed.

Lemma forEach_bindings ls st :
  bindings st = b -> bindings (forEach f ls st) = b.
Proof.
  intros Hb. rewrite (erase_eq _ _ (forEach_erase ls st Hb)). exact Hb.
Qed.

Lemma forEach_heap ls : forall st l,
  bindings st = b ->
  heap (forEach f ls st) !! l =
    if bool_decide (l ∈ ls)
    then (fun r => set_isValid (g r) r) <$> heap st !! l
    else heap st !! l.
Proof.
  induction ls as [|a ls IH]; intros st l Hb; cbn [forEach].
  { rewrite bool_decide_eq_false_2; [reflexivity|apply not_elem_of_nil]. }
  destruct (heap st !! a) as [r|] eqn:Ha.
  - rewrite IH by (rewrite f_spec by assumption; exact Hb).
    rewrite f_spec by assumption. cbn [assignIsValid set_heap heap set_log].
    destruct (decide (l = a)) as [->|Hne].
    + rewrite list_lookup_alter_eq, Ha.
      rewrite (bool_decide_eq_true_2 (a ∈ a :: ls)) by apply list_elem_of_here.
      destruct (bool_decide (a ∈ ls)); [|reflexivity].
      cbn. f_equal. unfold set_isValid. cbn.
      f_equal. apply g_pattern. reflexivity.
    + rewrite list_lookup_alter_ne by congruence.
      rewrite (bool_decide_ext (l ∈ a :: ls) (l ∈ ls)); [reflexivity|].
      rewrite elem_of_cons. tauto.
  - rewrite IH by assumption.
    destruct (decide (l = a)) as [->|Hne].
    + rewrite Ha. destruct (bool_decide _), (bool_decide _); reflexivity.
    + rewrite (bool_decide_ext (l ∈ a :: ls) (l ∈ ls)); [reflexivity|].
      rewrite elem_of_cons. tauto.
Qed.

Lemma forEach_log ls : forall st,
  bindings st = b ->
  log (forEach f ls st) =
    log st ++ concat (omap (fun l => e l <$> heap st !! l) ls).
Proof.
  induction ls as [|a ls IH]; intros st Hb; cbn [forEach omap list_omap concat].
  { rewrite app_nil_r. reflexivity. }
  destruct (heap st !! a) as [r|] eqn:Ha; cbn; [|auto].
  rewrite IH by (rewrite f_spec by assumption; exact Hb).
  rewrite f_spec by assumption.
  cbn [assignIsValid set_heap heap set_log log].
  rewrite <- app_assoc. do 3 f_equal.
  apply list_omap_ext, Forall2_same_length_lookup_2; [reflexivity|].
  intros i x y Hx Hy. assert (x = y) as <- by congruence.
  rewrite list_lookup_alter. case_decide; [subst|reflexivity].
  rewrite Ha. cbn. f_equal. apply e_pattern. reflexivity.
Qed.
End ForEach.

Lemma ruleObjects_marked (g : Rule -> JsVal) (st st' : State) :
  rules st' = rules st ->
  (forall l, heap st' !! l =
     if bool_decide (l ∈ rules st)
     then (fun r => set_isValid (g r) r) <$> heap st !! l
     else heap st !! l) ->
  ruleObjects st' =
    map (fun p => (p.1, set_isValid (g p.2) p.2)) (ruleObjects st).
Proof.
  unfold ruleObjects. intros -> Hheap.
  assert (Hin : forall l, l ∈ rules st -> l ∈ rules st) by auto.
  revert Hin. generalize (rules st) at 1 3 4. intros ls.
  induction ls as [|a ls IH]; intros Hin; [reflexivity|].
  cbn [omap list_omap].
  rewrite Hheap, bool_decide_eq_true_2 by (apply Hin, list_elem_of_here).
  rewrite IH by (intros l Hl; apply Hin, list_elem_of_further, Hl).
  destruct (heap st !! a); reflexivity.
Qed.

Lemma hasInvalidRule_ruleObjects st :
  hasInvalidRule st = existsb (fun p => isFalse (isValid p.2)) (ruleObjects st).
Proof.
  unfold hasInvalidRule, ruleObjects.
  induction (rules st) as [|a ls IH]; [reflexivity|].
  cbn [existsb omap list_omap]. rewrite IH.
  destruct (heap st !! a); reflexivity.
Qed.

Section Check.
Variable st : State.
Variable value : string.

Lemma checkRule_spec l r s :
  bindings s = bindings st ->
  checkRule value l r s =
    assignIsValid l (evaluate st value r)
      (set_log (log s ++ [evaluation st value l r]) s).
Proof.
  intros Hb. unfold checkRule, emit.
  rewrite (evaluate_pattern s st value r r Hb eq_refl).
  rewrite (evaluation_pattern s st value l r r Hb eq_refl).
  reflexivity.
Qed.

Lemma checkPatternsValidity_erase :
  erase (checkPatternsValidity value st).1 = erase st.
Proof.
  apply (forEach_erase (bindings st) (evaluate st value)
           (fun l r => [evaluation st value l r]) (checkRule value) checkRule_spec).
  reflexivity.
Qed.

Lemma checkPatternsValidity_heap l :
  heap (checkPatternsValidity value st).1 !! l =
    if bool_decide (l ∈ rules st)
    then (fun r => set_isValid (evaluate st value r) r) <$> heap st !! l
    else heap st !! l.
Proof.
  apply (forEach_heap (bindings st) (evaluate st value)
           (fun l r => [evaluation st value l r]) (checkRule value)).
  - intros r r' H. apply evaluate_pattern; [reflexivity|exact H].
  - apply checkRule_spec.
  - reflexivity.
Qed.

Lemma checkPatternsValidity_rules :
  rules (checkPatternsValidity value st).1 = rules st.
Proof.
  rewrite (erase_eq _ _ checkPatternsValidity_erase). reflexivity.
Qed.

Lemma checkPatternsValidity_ruleObjects :
  ruleObjects (checkPatternsValidity value st).1 =
    map (fun p => (p.1, set_isValid (evaluate st value p.2) p.2)) (ruleObjects st).
Proof.
  apply ruleObjects_marked;
    [apply checkPatternsValidity_rules|apply checkPatternsValidity_heap].
Qed.

Lemma checkPatternsValidity_log :
  log (checkPatternsValidity value st).1 =
    log st ++ map (fun p => evaluation st value p.1 p.2) (ruleObjects st).
Proof.
  unfold checkPatternsValidity. cbn [fst].
  rewrite (forEach_log (bindings st) (evaluate st value)
             (fun l r => [evaluation st value l r]) (checkRule value));
    [|intros; f_equal; apply evaluation_pattern; [reflexivity|assumption]
     |apply checkRule_spec|reflexivity].
  f_equal. unfold ruleObjects.
  induction (rules st) as [|a ls IH]; [reflexivity|].
  cbn [omap list_omap]. destruct (heap st !! a); cbn; [f_equal|]; exact IH.
Qed.

Lemma checkPatternsValidity_result :
  (checkPatternsValidity value st).2 =
    negb (hasInvalidRule (checkPatternsValidity value st).1).
Proof. reflexivity. Qed.

(** The result is [false] exactly when some rule evaluated to [false]. *)
Lemma checkPatternsValidity_no_failure :
  (checkPatternsValidity value st).2 =
    forallb (fun p => negb (isFalse (evaluate st value p.2))) (ruleObjects st).
Proof.
  rewrite checkPatternsValidity_result, hasInvalidRule_ruleObjects.
  rewrite checkPatternsValidity_ruleObjects.
  induction (ruleObjects st) as [|p ps IH]; [reflexivity|].
  cbn [map existsb forallb] in *. rewrite negb_orb, IH. reflexivity.
Qed.
End Check.

Section Reset.
Variable st : State.

Lemma resetRule_spec l r s :
  bindings s = bindings st ->
  resetRule l r s = assignIsValid l (JBool true) (set_log (log s ++ []) s).
Proof.
  intros _. unfold resetRule. rewrite app_nil_r. destruct s; reflexivity.
Qed.

Lemma resetPatternsValidity_erase :
  erase (resetPatternsValidity st) = erase st.
Proof.
  apply (forEach_erase (bindings st) (fun _ => JBool true)
           (fun _ _ => []) resetRule resetRule_spec).
  reflexivity.
Qed.

Lemma resetPatternsValidity_heap l :
  heap (resetPatternsValidity st) !! l =
    if bool_decide (l ∈ rules st)
    then (fun r => set_isValid (JBool true) r) <$> heap st !! l
    else heap st !! l.
Proof.
  apply (forEach_heap (bindings st) (fun _ => JBool true)
           (fun _ _ => []) resetRule);
    [reflexivity|apply resetRule_spec|reflexivity].
Qed.

Lemma resetPatternsValidity_ruleObjects :
  ruleObjects (resetPatternsValidity st) =
    map (fun p => (p.1, set_isValid (JBool true) p.2)) (ruleObjects st).
Proof.
  apply (ruleObjects_marked (fun _ => JBool true));
    [|apply resetPatternsValidity_heap].
  rewrite (erase_eq _ _ resetPatternsValidity_erase). reflexivity.
Qed.

Lemma resetPatternsValidity_log :
  log (resetPatternsValidity st) = log st.
Proof.
  unfold resetPatternsValidity.
  rewrite (forEach_log (bindings st) (fun _ => JBool true)
             (fun _ _ => []) resetRule);
    [|reflexivity|apply resetRule_spec|reflexivity].
  induction (rules st) as [|a ls IH]; [apply app_nil_r|].
  cbn [omap list_omap]. destruct (heap st !! a); exact IH.
Qed.
End Reset.

(** ** The validator *)

Lemma validationRulesValidator_erase modelValue st :
  erase (validationRulesValidator modelValue st).1 = erase st.
Proof.
  unfold validationRulesValidator.
  destruct (_ && _); cbn [fst];
    [apply resetPatternsValidity_erase|apply checkPatternsValidity_erase].
Qed.

Lemma validationRulesValidator_check modelValue st :
  data st <> ""%string ->
  validationRulesValidator modelValue st = checkPatternsValidity modelValue st.
Proof.
  intros Hdata. unfold validationRulesValidator.
  destruct (String.eqb_spec (data st) ""); [contradiction|].
  rewrite andb_false_r. reflexivity.
Qed.

Lemma forallb_boolean_truthy {A} (f : A -> JsVal) (xs : list A) :
  forallb (fun x => isBoolean (f x)) xs = true ->
  forallb (fun x => negb (isFalse (f x))) xs = forallb (fun x => truthy (f x)) xs.
Proof.
  induction xs as [|x xs IH]; [reflexivity|].
  cbn [forallb]. intros [Hx Hxs]%andb_prop. rewrite (IH Hxs).
  destruct (f x) as [| |[]| |]; try discriminate; reflexivity.
Qed.

(** C1, as the code has it.  While the value of the field is not empty,
    the validator evaluates every rule in order: a rule whose pattern is a
    function is called with the value under validation, the name of the
    field and the form, in this order; a rule whose pattern is a regular
    expression tests the value under validation.  Every result is stored in
    the [isValid] of its rule and every evaluation is logged as one call.
    The validator answers [true] exactly when no result is [false] itself,
    which is when no rule is left with [isValid] equal to [false]; when every
    result is a Boolean, this is the conjunction of the results. *)
Theorem validationRulesValidator_conjunction (st : State) (modelValue : string) :
  data st <> ""%string ->
  let result (rule : Rule) : JsVal :=
    match pattern rule with
    | PFunction f =>
        f modelValue (inputName (bindings st)) (formObject (bindings st))
    | PRegExp re => JBool (test re modelValue)
    end in
  let call (l : loc) (rule : Rule) : Effect :=
    match pattern rule with
    | PFunction _ =>
        PatternCall l modelValue (inputName (bindings st)) (formObject (bindings st))
    | PRegExp _ => PatternTest l modelValue
    end in
  let st' := (validationRulesValidator modelValue st).1 in
  (validationRulesValidator modelValue st).2 =
    forallb (fun p => negb (isFalse (result p.2))) (ruleObjects st)
  /\ (validationRulesValidator modelValue st).2 = negb (hasInvalidRule st')
  /\ ruleObjects st' =
       map (fun p => (p.1, set_isValid (result p.2) p.2)) (ruleObjects st)
  /\ log st' = log st ++ map (fun p => call p.1 p.2) (ruleObjects st)
  /\ (forallb (fun p => isBoolean (result p.2)) (ruleObjects st) = true ->
      (validationRulesValidator modelValue st).2 =
        forallb (fun p => truthy (result p.2)) (ruleObjects st)).
Proof.
  intros Hdata result call st'. subst st'.
  rewrite (validationRulesValidator_check _ _ Hdata).
  change result with (evaluate st modelValue).
  change call with (evaluation st modelValue).
  split; [apply checkPatternsValidity_no_failure|].
  split; [reflexivity|].
  split; [apply checkPatternsValidity_ruleObjects|].
  split; [apply checkPatternsValidity_log|].
  intros Hbool. rewrite checkPatternsValidity_no_failure.
  apply forallb_boolean_truthy, Hbool.
Qed.

(** C2.  When the field is not required and its value is empty, the validator
    accepts, whatever the rules are: every rule object gets [isValid = true]
    and nothing is logged, so no rule was evaluated. *)
Theorem validationRulesValidator_optional_empty (st : State) (modelValue : string) :
  is_true (validationIsRequired (bindings st)) = false ->
  data st = ""%string ->
  let st' := (validationRulesValidator modelValue st).1 in
  (validationRulesValidator modelValue st).2 = true
  /\ ruleObjects st' =
       map (fun p => (p.1, set_isValid (JBool true) p.2)) (ruleObjects st)
  /\ Forall (fun p => isValid p.2 = JBool true) (ruleObjects st')
  /\ hasInvalidRule st' = false
  /\ log st' = log st.
Proof.
  intros Hreq Hdata st'. subst st'. unfold validationRulesValidator.
  rewrite Hreq, Hdata. cbn [negb andb String.eqb fst snd].
  assert (Hobjs := resetPatternsValidity_ruleObjects st).
  repeat split.
  - exact Hobjs.
  - rewrite Hobjs. apply Forall_forall.
    intros p [q [<- _]]%list_elem_of_In%in_map_iff. reflexivity.
  - rewrite hasInvalidRule_ruleObjects, Hobjs. clear Hobjs.
    induction (ruleObjects st) as [|p ps IH]; [reflexivity|exact IH].
  - apply resetPatternsValidity_log.
Qed.

(** ** What validation leaves alone *)

Lemma quiet_refl st : quiet st st.
Proof. split; reflexivity. Qed.

Lemma quiet_trans st1 st2 st3 : quiet st1 st2 -> quiet st2 st3 -> quiet st1 st3.
Proof.
  intros [b1 r1 s1 l1 f1 n1 h1 c1] [b2 r2 s2 l2 f2 n2 h2 c2].
  split; try congruence.
  intros l Hl. rewrite h2, h1; [reflexivity|exact Hl|].
  unfold rules in *. rewrite r1. exact Hl.
Qed.

Ltac quiet_fields := split; cbn; first [reflexivity | intros; reflexivity].

Lemma quiet_andThen st c k :
  quiet st (stateOf c) ->
  (forall s, c = Normal s -> quiet s (stateOf (k s))) ->
  quiet st (stateOf (andThen c k)).
Proof.
  intros Hc Hk. destruct c as [s|s]; cbn in *; [|exact Hc].
  eapply quiet_trans; [exact Hc|apply Hk; reflexivity].
Qed.

Lemma validationRulesValidator_quiet modelValue st :
  quiet st (validationRulesValidator modelValue st).1.
Proof.
  pose proof (validationRulesValidator_erase modelValue st) as He.
  apply erase_eq in He.
  assert (Hlen : length (heap (validationRulesValidator modelValue st).1)
                 = length (heap st)).
  { unfold validationRulesValidator. destruct (_ && _); cbn [fst].
    - apply (forEach_length (bindings st) (fun _ => JBool true)
               (fun _ _ => []) resetRule (resetRule_spec st)). reflexivity.
    - apply (forEach_length (bindings st) (evaluate st modelValue)
               (fun l r => [evaluation st modelValue l r])
               (checkRule modelValue) (checkRule_spec st modelValue)).
      reflexivity. }
  assert (Hheap : forall l, l ∉ rules st ->
            heap (validationRulesValidator modelValue st).1 !! l = heap st !! l).
  { intros l Hl. unfold validationRulesValidator. destruct (_ && _); cbn [fst].
    - rewrite resetPatternsValidity_heap, bool_decide_eq_false_2; auto.
    - rewrite checkPatternsValidity_heap, bool_decide_eq_false_2; auto. }
  assert (Hcontent : forall l,
            content <$> heap (validationRulesValidator modelValue st).1 !! l
            = content <$> heap st !! l).
  { intros l. unfold validationRulesValidator. destruct (_ && _); cbn [fst].
    - rewrite resetPatternsValidity_heap.
      destruct (bool_decide _), (heap st !! l); reflexivity.
    - rewrite checkPatternsValidity_heap.
      destruct (bool_decide _), (heap st !! l); reflexivity. }
  split; try assumption; rewrite He; reflexivity.
Qed.

Lemma runValidators_quiet modelValue st : quiet st (runValidators modelValue st).
Proof.
  unfold runValidators.
  pose proof (validationRulesValidator_quiet modelValue st) as Hq.
  destruct (validationRulesValidator modelValue st) as [st' own]. cbn [fst] in Hq.
  destruct (ngModel st'); [|exact Hq].
  eapply quiet_trans; [exact Hq|quiet_fields].
Qed.

Lemma validate_quiet st : quiet st (stateOf (validate st)).
Proof.
  unfold validate. destruct (ngModel st); cbn [stateOf];
    [apply runValidators_quiet|apply quiet_refl].
Qed.

Lemma onChange_quiet st : quiet st (stateOf (onChange st)).
Proof.
  unfold onChange. apply quiet_andThen; [apply validate_quiet|].
  intros s _. destruct (is_true _); [destruct (valid s) as [[]|]|];
    cbn [stateOf]; try apply quiet_refl; quiet_fields.
Qed.

Lemma commitViewValue_quiet st : quiet st (stateOf (commitViewValue st)).
Proof.
  unfold commitViewValue. destruct (ngModel st) as [nm|]; [|apply quiet_refl].
  destruct (String.eqb _ _); [apply quiet_refl|].
  apply quiet_andThen.
  - destruct (String.eqb _ _); cbn [stateOf]; [quiet_fields|].
    eapply quiet_trans; [|apply onChange_quiet]. quiet_fields.
  - intros s _. apply runValidators_quiet.
Qed.

Lemma setOrRevertInputValue_quiet st :
  quiet st (stateOf (setOrRevertInputValue st)).
Proof.
  unfold setOrRevertInputValue.
  destruct (invalid st) as [[]|]; cbn [stateOf];
    try apply quiet_refl; quiet_fields.
Qed.

Lemma onBlur_quiet event st : quiet st (stateOf (onBlur event st)).
Proof.
  unfold onBlur. destruct (preventInputBlur st); [quiet_fields|].
  apply quiet_andThen.
  - eapply quiet_trans; [|apply commitViewValue_quiet]. quiet_fields.
  - intros s _. apply quiet_andThen.
    + destruct (is_true _); [apply setOrRevertInputValue_quiet|apply quiet_refl].
    + intros s' _. quiet_fields.
Qed.

Lemma setViewValue_quiet value st : quiet st (stateOf (setViewValue value st)).
Proof.
  unfold setViewValue. destruct (ngModel st); [quiet_fields|apply quiet_refl].
Qed.

Lemma clearInputField_quiet st : quiet st (stateOf (clearInputField st)).
Proof.
  unfold clearInputField. destruct (String.eqb _ _).
  - apply quiet_andThen; [apply setViewValue_quiet|].
    intros s _. apply commitViewValue_quiet.
  - eapply quiet_trans; [|apply onChange_quiet]. quiet_fields.
Qed.

Lemma onFocus_quiet event st : quiet st (onFocus event st).
Proof. unfold onFocus. destruct st as [? ? ? ? ? ? ? ? ? ? ? [| |[|]]]; quiet_fields. Qed.

Lemma onKeyDown_quiet event st : quiet st (onKeyDown event st).
Proof. unfold onKeyDown. destruct (_ =? _); [quiet_fields|apply quiet_refl]. Qed.

Lemma focusField_quiet st : quiet st (stateOf (focusField st)).
Proof.
  unfold focusField. destruct (ngModel st); [quiet_fields|apply quiet_refl].
Qed.

Lemma runTask_quiet t env st : quiet st (stateOf (runTask t env st)).
Proof.
  destruct t; cbn [runTask].
  - apply quiet_andThen.
    + eapply quiet_trans; [|apply validate_quiet]. quiet_fields.
    + intros s _. destruct (is_true _); [quiet_fields|apply quiet_refl].
  - apply focusField_quiet.
  - apply quiet_andThen; [apply focusField_quiet|]. intros s _. quiet_fields.
  - quiet_fields.
Qed.

Lemma digest_quiet st : quiet st (digest st).
Proof.
  unfold digest. destruct (ngModel st); [|apply quiet_refl].
  destruct (String.eqb _ _); [apply quiet_refl|].
  destruct (String.eqb _ _); [quiet_fields|].
  eapply quiet_trans; [|apply runValidators_quiet]. quiet_fields.
Qed.

(** ** The pop-up and its listener *)

Lemma onInit_popUp st :
  isValidationPopUpShown (stateOf (onInit st)) = isValidationPopUpShown st
  /\ documentClickListeners (stateOf (onInit st)) = documentClickListeners st.
Proof.
  unfold onInit. cbn [stateOf].
  repeat match goal with |- context [if ?c then _ else _] => destruct c end;
    split; reflexivity.
Qed.

Lemma onChanges_popUp c st :
  isValidationPopUpShown (stateOf (onChanges c st)) = isValidationPopUpShown st
  /\ documentClickListeners (stateOf (onChanges c st)) = documentClickListeners st.
Proof.
  unfold onChanges, validationRulesChanged, isFocusedChanged, inputValueChanged.
  destruct (changes.inputValue c) as [chv|];
    destruct (changes.isFocused c) as [chf|];
    destruct (changes.validationRules c) as [chr|];
    try destruct (negb (changes.isFirstChange chf));
    try destruct (copy _ _ _) as [ds h];
    try match goal with
        |- context [if ?c then validate ?s else _] =>
          destruct c;
          [destruct (validate_quiet s) as [_ _ Hs Hl _ _ _ _]; rewrite Hs, Hl|]
        end;
    split; reflexivity.
Qed.

Lemma quiet_popUpListener st st' :
  quiet st st' -> popUpListener st -> popUpListener st'.
Proof. intros [_ _ Hs Hl _ _ _ _]. unfold popUpListener. rewrite Hs, Hl. auto. Qed.

Lemma toggleValidationPopUp_popUpListener st :
  popUpListener st -> popUpListener (toggleValidationPopUp st).
Proof.
  unfold popUpListener, toggleValidationPopUp.
  destruct (rules st); [auto|].
  destruct (isValidationPopUpShown st) eqn:Hshown; cbn; [auto|].
  intros [H0|[_ H]]; [rewrite H0; auto|discriminate].
Qed.

Lemma handleDocumentClick_popUpListener event st :
  popUpListener st -> popUpListener (handleDocumentClick event st).
Proof.
  unfold popUpListener, handleDocumentClick. intros H.
  destruct (targetInside event); cbn; [|auto].
  destruct (isValidationPopUpShown st) eqn:Hshown; cbn; [|auto].
  rewrite Hshown. exact H.
Qed.

Lemma step_popUpListener e st : popUpListener st -> popUpListener (step e st).
Proof.
  intros H. destruct e; cbn [step].
  - destruct (onChanges_popUp c (assigned c st)) as [Hs Hl].
    unfold popUpListener. rewrite Hs, Hl.
    unfold assigned.
    destruct (changes.isFocused c), (changes.validationRules c); exact H.
  - destruct (onInit_popUp st) as [Hs Hl].
    unfold popUpListener. rewrite Hs, Hl. exact H.
  - eapply quiet_popUpListener; [|exact H]. unfold postLink. quiet_fields.
  - left. reflexivity.
  - eapply quiet_popUpListener; [apply clearInputField_quiet|exact H].
  - eapply quiet_popUpListener; [apply onBlur_quiet|exact H].
  - eapply quiet_popUpListener; [apply onChange_quiet|exact H].
  - eapply quiet_popUpListener; [apply onFocus_quiet|exact H].
  - eapply quiet_popUpListener; [apply onKeyDown_quiet|exact H].
  - apply toggleValidationPopUp_popUpListener, H.
  - generalize (documentClickListeners st). intros n.
    induction n as [|n IH]; cbn [Nat.iter]; [exact H|].
    apply handleDocumentClick_popUpListener, IH.
  - destruct (timers st !! i) as [t|]; [|exact H].
    eapply quiet_popUpListener; [|exact H].
    eapply quiet_trans; [|apply runTask_quiet]. quiet_fields.
  - eapply quiet_popUpListener; [apply setViewValue_quiet|exact H].
  - eapply quiet_popUpListener; [apply commitViewValue_quiet|exact H].
  - eapply quiet_popUpListener; [apply digest_quiet|exact H].
  - unfold assigned.
    destruct (changes.isFocused c), (changes.validationRules c); exact H.
Qed.

Lemma run_popUpListener es : forall st,
  popUpListener st -> popUpListener (run es st).
Proof.
  induction es as [|e es IH]; intros st H; [exact H|].
  apply IH, step_popUpListener, H.
Qed.

Lemma reachable_popUpListener st : reachable st -> popUpListener st.
Proof.
  intros (b & h & es & ->). apply run_popUpListener. left. reflexivity.
Qed.

Lemma toggleValidationPopUp_open st :
  rules st <> [] -> isValidationPopUpShown st = false ->
  toggleValidationPopUp st =
    defer TPlacePopUp
      (set_showPopUpOnTop false
         (documentOn (set_isValidationPopUpShown true st))).
Proof.
  intros Hr Hs. unfold toggleValidationPopUp.
  destruct (rules st); [contradiction|]. rewrite Hs. reflexivity.
Qed.

Lemma toggleValidationPopUp_close st :
  rules st <> [] -> isValidationPopUpShown st = true ->
  toggleValidationPopUp st = documentOff (set_isValidationPopUpShown false st).
Proof.
  intros Hr Hs. unfold toggleValidationPopUp.
  destruct (rules st); [contradiction|]. rewrite Hs. reflexivity.
Qed.

(** C7.  In every state the component can reach, the document-level click
    listener is attached at most once and only while the pop-up is shown.
    Without rules, toggling changes nothing.  With rules and the pop-up
    hidden, the first toggle shows it and attaches the listener, the second
    hides it again and leaves no listener attached.  Closing, by a toggle or
    by a click outside the component, detaches the listener, and so does the
    destructor. *)
Theorem toggleValidationPopUp_listener (st : State) :
  reachable st ->
  popUpListener st
  /\ (rules st = [] -> toggleValidationPopUp st = st)
  /\ (rules st <> [] -> isValidationPopUpShown st = false ->
      let opened := toggleValidationPopUp st in
      let closed := toggleValidationPopUp opened in
      isValidationPopUpShown opened = true
      /\ documentClickListeners opened = 1%nat
      /\ isValidationPopUpShown closed = false
      /\ documentClickListeners closed = 0%nat)
  /\ (rules st <> [] -> isValidationPopUpShown st = true ->
      isValidationPopUpShown (toggleValidationPopUp st) = false
      /\ documentClickListeners (toggleValidationPopUp st) = 0%nat)
  /\ (forall event,
      documentClickListeners st = 1%nat -> targetInside event = false ->
      isValidationPopUpShown (step (EDocumentClick event) st) = false
      /\ documentClickListeners (step (EDocumentClick event) st) = 0%nat)
  /\ documentClickListeners (onDestroy st) = 0%nat.
Proof.
  intros Hreach. pose proof (reachable_popUpListener st Hreach) as Hinv.
  split; [exact Hinv|].
  split. { intros Hr. unfold toggleValidationPopUp. rewrite Hr. reflexivity. }
  split.
  { intros Hr Hshown. cbv zeta.
    rewrite (toggleValidationPopUp_open st Hr Hshown).
    rewrite toggleValidationPopUp_close by (try exact Hr; reflexivity).
    destruct Hinv as [H0|[_ H1]]; [|congruence].
    cbn. rewrite H0. auto. }
  split.
  { intros Hr Hshown. rewrite (toggleValidationPopUp_close st Hr Hshown).
    auto. }
  split; [|reflexivity].
  intros event H1 Hout. cbn [step]. rewrite H1. cbn [Nat.iter].
  unfold handleDocumentClick. rewrite Hout. auto.
Qed.

(** ** Changes of the bound value *)

Lemma runValidators_shape modelValue st :
  runValidators modelValue st =
    set_ngModel (ngModel (runValidators modelValue st))
      (set_heap (heap (runValidators modelValue st))
         (set_log (log (runValidators modelValue st)) st)).
Proof.
  unfold runValidators.
  pose proof (erase_eq _ _ (validationRulesValidator_erase modelValue st)) as He.
  destruct (validationRulesValidator modelValue st) as [st' own].
  cbn [fst] in He. rewrite He. cbn. destruct (ngModel st); reflexivity.
Qed.

Lemma validate_shape st :
  stateOf (validate st) =
    set_ngModel (ngModel (stateOf (validate st)))
      (set_heap (heap (stateOf (validate st)))
         (set_log (log (stateOf (validate st))) st)).
Proof.
  unfold validate. destruct (ngModel st) eqn:Hng; cbn [stateOf].
  - apply runValidators_shape.
  - destruct st. cbn in *. subst. reflexivity.
Qed.

(** C8.  A change of the bound input value overwrites [ctrl.data] with the
    new value (with the empty text when the new value is [null] or
    [undefined]) and resets the snapshot of the last valid value to the same
    value, whatever else changed with it. *)
Theorem onChanges_inputValue (c : changes.t) (st : State)
    (ch : changes.change string) :
  changes.inputValue c = Some ch ->
  let st' := stateOf (onChanges c st) in
  data st' = defaultTo (changes.currentValue ch) ""%string
  /\ lastValidValue st' = data st'.
Proof.
  intros Hc st'. subst st'.
  unfold onChanges, validationRulesChanged, isFocusedChanged, inputValueChanged.
  rewrite Hc.
  destruct (changes.isFocused c) as [chf|];
    destruct (changes.validationRules c) as [chr|];
    try destruct (negb (changes.isFirstChange chf));
    try destruct (copy _ _ _) as [ds h];
    try match goal with
        |- context [if ?c then validate ?s else _] =>
          destruct c; [rewrite (validate_shape s)|]
        end;
    split; reflexivity.
Qed.

(** ** Initialization *)

Lemma onInit_effective st :
  let ft := default (selectedFieldType st) (fieldType (bindings st)) in
  let bm := default defaultBorderMode (bordersMode (bindings st)) in
  let mode := if includes BORDER_MODES (Some bm) then bm else defaultBorderMode in
  selectedFieldType (stateOf (onInit st))
    = (if includes FIELD_TYPES (Some ft) then ft else selectedFieldType st)
  /\ bordersMode (bindings (stateOf (onInit st))) = Some mode
  /\ bordersModeClass (stateOf (onInit st)) = (BORDERS_CLASS_BASE ++ mode)%string.
Proof.
  intros ft bm mode. unfold onInit. cbn [stateOf].
  set (st1 := set_bindings (defaults st) st).
  assert (Hft : fieldType (bindings st1) = Some ft).
  { subst st1 ft. cbn. destruct (fieldType (bindings st)); reflexivity. }
  assert (Hbm : bordersMode (bindings st1) = Some bm).
  { subst st1 bm. cbn. destruct (bordersMode (bindings st)); reflexivity. }
  assert (Hsel : selectedFieldType st1 = selectedFieldType st) by reflexivity.
  clearbody st1. rewrite Hft. subst mode.
  destruct (includes FIELD_TYPES (Some ft));
    cbn [bindings set_selectedFieldType]; rewrite Hbm;
    destruct (includes BORDER_MODES (Some bm)); cbn; rewrite ?Hbm, ?Hsel;
    repeat split; reflexivity.
Qed.

(** C9.  Initialization never throws.  On the controller as the constructor
    leaves it ([selectedFieldType] is [input]), a [fieldType] that is none of
    the four known types leaves the field an [input]; a [bordersMode] that is
    none of the three known modes is replaced by [always], and the class of
    the borders follows the effective mode. *)
Theorem onInit_unrecognized (st : State) :
  selectedFieldType st = "input"%string ->
  includes FIELD_TYPES (fieldType (bindings st)) = false
  \/ includes BORDER_MODES (bordersMode (bindings st)) = false ->
  exists st',
    onInit st = Normal st'
    /\ (if includes FIELD_TYPES (fieldType (bindings st))
        then Some (selectedFieldType st') = fieldType (bindings st)
        else selectedFieldType st' = "input"%string)
    /\ (if includes BORDER_MODES (bordersMode (bindings st))
        then bordersMode (bindings st') = bordersMode (bindings st)
        else bordersMode (bindings st') = Some "always"%string)
    /\ bordersModeClass st'
       = ("borders-" ++ default ""%string (bordersMode (bindings st')))%string.
Proof.
  intros Hsel _. exists (stateOf (onInit st)). split; [reflexivity|].
  destruct (onInit_effective st) as (Hft & Hbm & Hclass).
  rewrite Hft, Hbm, Hclass, Hsel. clear Hft Hbm Hclass.
  destruct (fieldType (bindings st)) as [ft|],
           (bordersMode (bindings st)) as [bm|];
    cbn [from_option id];
    change (includes FIELD_TYPES (Some "input"%string)) with true;
    change (includes BORDER_MODES (Some defaultBorderMode)) with true;
    change (includes FIELD_TYPES None) with false;
    change (includes BORDER_MODES None) with false;
    try destruct (includes FIELD_TYPES (Some ft));
    try destruct (includes BORDER_MODES (Some bm));
    repeat split; reflexivity.
Qed.

(** ** The counter of remaining characters *)

Lemma getRemainingCharactersCount_positive st m :
  parseInt (validationMaxLength (bindings st)) = Some m ->
  0 < m ->
  getRemainingCharactersCount st
    = Some (toString (Some (m - Z.of_nat (String.length (data st))))).
Proof.
  intros Hm Hpos. unfold getRemainingCharactersCount. rewrite Hm. cbn.
  destruct (Z.leb_spec m 0); [lia|reflexivity].
Qed.

Lemma getRemainingCharactersCount_not_positive st m :
  parseInt (validationMaxLength (bindings st)) = Some m ->
  m <= 0 ->
  getRemainingCharactersCount st = None.
Proof.
  intros Hm Hpos. unfold getRemainingCharactersCount. rewrite Hm. cbn.
  destruct (Z.leb_spec m 0); [reflexivity|lia].
Qed.

Lemma getRemainingCharactersCount_not_a_number st :
  parseInt (validationMaxLength (bindings st)) = None ->
  getRemainingCharactersCount st = Some "NaN"%string.
Proof.
  intros Hm. unfold getRemainingCharactersCount. rewrite Hm. reflexivity.
Qed.

(** C6.  With a maximal length of 5 the counter reads "0" for "Hello" and
    "-1" for "Hello!", and it is [null] for a limit of 0; but when the limit
    is missing, empty or not a number, [parseInt] gives [NaN], the test
    [maxLength <= 0] fails and the counter reads "NaN" instead of [null]. *)
Theorem getRemainingCharactersCount_examples :
  getRemainingCharactersCount (counterField (Some "5"%string) "Hello")
    = Some "0"%string
  /\ getRemainingCharactersCount (counterField (Some "5"%string) "Hello!")
    = Some "-1"%string
  /\ getRemainingCharactersCount (counterField (Some "0"%string) "Hello") = None
  /\ getRemainingCharactersCount (counterField (Some "abc"%string) "Hello")
    = Some "NaN"%string
  /\ getRemainingCharactersCount (counterField (Some ""%string) "Hello")
    = Some "NaN"%string
  /\ getRemainingCharactersCount (counterField None "Hello")
    = Some "NaN"%string.
Proof. repeat split; reflexivity. Qed.

(** ** Change and blur *)

Lemma evaluation_isEvaluation st value l rule :
  isEvaluation (evaluation st value l rule) = true.
Proof. unfold evaluation. destruct (pattern rule); reflexivity. Qed.

Lemma validationRulesValidator_evaluations modelValue st :
  exists evs,
    log (validationRulesValidator modelValue st).1 = log st ++ evs
    /\ forallb isEvaluation evs = true.
Proof.
  unfold validationRulesValidator. destruct (_ && _); cbn [fst].
  - exists []. rewrite resetPatternsValidity_log, app_nil_r. auto.
  - eexists. split; [apply checkPatternsValidity_log|].
    induction (ruleObjects st) as [|p ps IH]; [reflexivity|].
    cbn [map forallb]. rewrite evaluation_isEvaluation. exact IH.
Qed.

Lemma runValidators_ngModel modelValue st nm :
  ngModel st = Some nm ->
  ngModel (runValidators modelValue st) =
    Some (set_ng_valid
            ((validationRulesValidator modelValue st).2
             && forallb (fun v => v modelValue) (ng_validators nm)) nm).
Proof.
  intros Hng. unfold runValidators.
  pose proof (erase_eq _ _ (validationRulesValidator_erase modelValue st)) as He.
  destruct (validationRulesValidator modelValue st) as [st' own].
  cbn [fst snd] in *. rewrite He. cbn. rewrite Hng. reflexivity.
Qed.

Lemma runValidators_heap modelValue st :
  heap (runValidators modelValue st) = heap (validationRulesValidator modelValue st).1.
Proof.
  unfold runValidators.
  destruct (validationRulesValidator modelValue st) as [st' own]. cbn [fst].
  destruct (ngModel st'); reflexivity.
Qed.

Lemma runValidators_log modelValue st :
  log (runValidators modelValue st) = log (validationRulesValidator modelValue st).1.
Proof.
  unfold runValidators.
  destruct (validationRulesValidator modelValue st) as [st' own]. cbn [fst].
  destruct (ngModel st'); reflexivity.
Qed.

Lemma runValidators_evaluations modelValue st :
  exists evs,
    log (runValidators modelValue st) = log st ++ evs
    /\ forallb isEvaluation evs = true.
Proof.
  rewrite runValidators_log. apply validationRulesValidator_evaluations.
Qed.

(** C5.  [onChange] validates the model value again: the rules are evaluated
    and the validity of the model is the conjunction of the component's
    validator and the others.  The value itself is left as it is.  In revert
    mode nothing but rule evaluations is logged (the update callback is not
    called) and the snapshot of the last valid value becomes the value when
    the model is valid, and stays when it is not; otherwise the update
    callback is called last, with the value and [updateDataField]. *)
Theorem onChange_protocol (st : State) (nm : NgModel) :
  ngModel st = Some nm ->
  let st1 := runValidators (ng_modelValue nm) st in
  let ok := (validationRulesValidator (ng_modelValue nm) st).2
            && forallb (fun v => v (ng_modelValue nm)) (ng_validators nm) in
  exists st' evs,
    onChange st = Normal st'
    /\ valid st' = Some ok
    /\ heap st' = heap st1
    /\ data st' = data st
    /\ log st1 = log st ++ evs
    /\ forallb isEvaluation evs = true
    /\ if is_true (isDataRevert (bindings st))
       then log st' = log st ++ evs
            /\ lastValidValue st' = (if ok then data st else lastValidValue st)
       else log st' = log st ++ evs
                      ++ [UpdateDataCallback (data st) (updateDataField (bindings st))]
            /\ lastValidValue st' = lastValidValue st.
Proof.
  intros Hng st1 ok.
  destruct (runValidators_evaluations (ng_modelValue nm) st) as (evs & Hlog & Hevs).
  pose proof (runValidators_ngModel (ng_modelValue nm) st nm Hng) as Hng1.
  pose proof (runValidators_shape (ng_modelValue nm) st) as Hshape.
  fold st1 in Hlog, Hng1, Hshape. fold ok in Hng1.
  assert (Hb : bindings st1 = bindings st) by (rewrite Hshape; reflexivity).
  assert (Hd : data st1 = data st) by (rewrite Hshape; reflexivity).
  assert (Hl : lastValidValue st1 = lastValidValue st) by (rewrite Hshape; reflexivity).
  unfold onChange, validate. rewrite Hng. cbn [andThen]. fold st1.
  unfold valid at 1. rewrite Hng1, Hb, Hd. cbn [fmap option_fmap option_map ng_valid set_ng_valid].
  destruct (is_true (isDataRevert (bindings st))).
  - destruct ok eqn:Hok; eexists; exists evs;
      (split; [reflexivity|]); unfold valid; cbn; rewrite Hng1; cbn;
      rewrite ?Hok; repeat split; auto.
  - eexists; exists evs. split; [reflexivity|]. unfold valid, emit. cbn.
    rewrite Hng1, Hlog, <- app_assoc. cbn. repeat split; auto.
Qed.

Lemma onChange_revert st nm :
  ngModel st = Some nm ->
  is_true (isDataRevert (bindings st)) = true ->
  exists st' evs,
    onChange st = Normal st'
    /\ is_Some (ngModel st')
    /\ log st' = log st ++ evs
    /\ forallb isEvaluation evs = true.
Proof.
  intros Hng Hrev. unfold onChange, validate. rewrite Hng. cbn [andThen].
  destruct (runValidators_evaluations (ng_modelValue nm) st) as (evs & Hlog & Hevs).
  pose proof (runValidators_ngModel (ng_modelValue nm) st nm Hng) as Hng1.
  rewrite (quiet_bindings _ _ (runValidators_quiet (ng_modelValue nm) st)), Hrev.
  unfold valid. rewrite Hng1. cbn [fmap option_fmap option_map].
  destruct (ng_valid _); eexists; exists evs;
    (split; [reflexivity|]); cbn; rewrite Hng1; eauto.
Qed.

Lemma commitViewValue_revert st nm :
  ngModel st = Some nm ->
  is_true (isDataRevert (bindings st)) = true ->
  exists st' nm' evs,
    commitViewValue st = Normal st'
    /\ ngModel st' = Some nm'
    /\ log st' = log st ++ evs
    /\ forallb isEvaluation evs = true.
Proof.
  intros Hng Hrev. unfold commitViewValue. rewrite Hng.
  destruct (String.eqb _ _).
  { exists st, nm, []. rewrite app_nil_r. auto. }
  set (st0 := set_ngModel (Some (committed nm)) st).
  assert (exists st2 nm2 evs2,
            (if String.eqb (ng_viewValue nm) (ng_modelValue nm) then Normal st0
             else onChange (set_data (ng_viewValue nm) st0)) = Normal st2
            /\ ngModel st2 = Some nm2
            /\ bindings st2 = bindings st
            /\ log st2 = log st ++ evs2
            /\ forallb isEvaluation evs2 = true)
    as (st2 & nm2 & evs2 & -> & Hng2 & Hb2 & Hlog2 & Hevs2).
  { destruct (String.eqb _ _).
    - exists st0, (committed nm), []. rewrite app_nil_r. auto.
    - destruct (onChange_revert (set_data (ng_viewValue nm) st0) (committed nm))
        as (st2 & evs2 & Hrun & [nm2 Hng2] & Hlog2 & Hevs2);
        [reflexivity|exact Hrev|].
      exists st2, nm2, evs2. repeat split; try assumption.
      pose proof (onChange_quiet (set_data (ng_viewValue nm) st0)) as Hq.
      rewrite Hrun in Hq. apply (quiet_bindings _ _ Hq). }
  cbn [andThen].
  destruct (runValidators_evaluations (ng_viewValue nm) st2) as (evs3 & Hlog3 & Hevs3).
  eexists _, _, (evs2 ++ evs3). split; [reflexivity|].
  split; [apply (runValidators_ngModel _ _ _ Hng2)|].
  split; [rewrite Hlog3, Hlog2, <- app_assoc; reflexivity|].
  rewrite forallb_app, Hevs2, Hevs3. reflexivity.
Qed.

(** One blur that is not held back by [preventInputBlur], in revert mode:
    the pending view value is committed and validated, which logs nothing but
    rule evaluations.  If the model is then invalid, the value becomes the
    snapshot and the update callback is not called; if it is valid, the
    update callback is called with the value and [updateDataField].  In both
    cases the blur callback is called last, with the event, the value and
    [inputName]. *)
Lemma onBlur_revert (event : DomEvent) (st : State) (nm : NgModel) :
  preventInputBlur st = false ->
  is_true (isDataRevert (bindings st)) = true ->
  ngModel st = Some nm ->
  exists st1 evs isInvalid st',
    commitViewValue (set_inputFocused false st) = Normal st1
    /\ log st1 = log st ++ evs
    /\ forallb isEvaluation evs = true
    /\ invalid st1 = Some isInvalid
    /\ onBlur event st = Normal st'
    /\ if isInvalid
       then data st' = lastValidValue st1
            /\ log st' = log st1
                 ++ [ItemBlurCallback event (lastValidValue st1)
                       (inputName (bindings st))]
       else data st' = data st1
            /\ log st' = log st1
                 ++ [UpdateDataCallback (data st1) (updateDataField (bindings st));
                     ItemBlurCallback event (data st1) (inputName (bindings st))].
Proof.
  intros Hprevent Hrev Hng.
  destruct (commitViewValue_revert (set_inputFocused false st) nm Hng Hrev)
    as (st1 & nm1 & evs & Hcommit & Hng1 & Hlog & Hevs).
  pose proof (commitViewValue_quiet (set_inputFocused false st)) as Hq.
  rewrite Hcommit in Hq. cbn [stateOf] in Hq.
  pose proof (quiet_bindings _ _ Hq) as Hb. cbn in Hb.
  exists st1, evs, (negb (ng_valid nm1)).
  unfold onBlur. rewrite Hprevent, Hcommit. cbn [andThen].
  rewrite Hb, Hrev. unfold setOrRevertInputValue, invalid, valid.
  rewrite Hng1. cbn [fmap option_fmap option_map].
  destruct (negb (ng_valid nm1)); cbn [andThen]; eexists;
    (split; [reflexivity|]); (split; [exact Hlog|]); (split; [exact Hevs|]);
    (split; [reflexivity|]); (split; [reflexivity|]); cbn; rewrite Hb;
    rewrite <- ?app_assoc; split; reflexivity.
Qed.

(** ** The rules are copied *)

Lemma cloneOf_Some memo l d : cloneOf memo l = Some d -> (l, d) ∈ memo.
Proof.
  induction memo as [|[s d'] memo IH]; cbn [cloneOf]; [discriminate|].
  destruct (Nat.eqb_spec s l) as [->|Hne].
  - intros [= ->]. apply list_elem_of_here.
  - intros H. apply list_elem_of_further, IH, H.
Qed.

(** The store only grows, and every reference of the copy is at or beyond
    the bound [n] that the store had passed and the clones made so far
    respect. *)
Lemma copy_fresh n src : forall memo h ds h',
  (n <= length h)%nat ->
  Forall (fun p => (n <= p.2)%nat) memo ->
  copy src memo h = (ds, h') ->
  (exists ext, h' = h ++ ext)
  /\ Forall (fun d => (n <= d)%nat) ds
  /\ length ds = length src.
Proof.
  induction src as [|l src IH]; intros memo h ds h' Hn Hmemo Hcopy;
    cbn [copy] in Hcopy.
  { injection Hcopy as <- <-. split; [exists []; symmetry; apply app_nil_r|auto]. }
  destruct (cloneOf memo l) as [d|] eqn:Hclone.
  - destruct (copy src memo h) as [ds' h''] eqn:Htail.
    injection Hcopy as <- <-.
    destruct (IH _ _ _ _ Hn Hmemo Htail) as (Hext & Hds & Hlen).
    split; [exact Hext|]. split; [|cbn; congruence].
    constructor; [|exact Hds].
    apply cloneOf_Some in Hclone.
    apply (proj1 (Forall_forall _ _) Hmemo _ Hclone).
  - destruct (h !! l) as [rule|] eqn:Hl.
    + destruct (copy src ((l, length h) :: memo) (h ++ [rule])) as [ds' h''] eqn:Htail.
      injection Hcopy as <- <-.
      assert (Hn' : (n <= length (h ++ [rule]))%nat)
        by (rewrite length_app; lia).
      assert (Hmemo' : Forall (fun p => (n <= p.2)%nat) ((l, length h) :: memo))
        by (constructor; [exact Hn|exact Hmemo]).
      destruct (IH _ _ _ _ Hn' Hmemo' Htail) as ([ext ->] & Hds & Hlen).
      split; [exists ([rule] ++ ext); rewrite <- app_assoc; reflexivity|].
      split; [constructor; assumption|cbn; congruence].
    + destruct (copy src memo h) as [ds' h''] eqn:Htail.
      injection Hcopy as <- <-.
      destruct (IH _ _ _ _ Hn Hmemo Htail) as (Hext & Hds & Hlen).
      split; [exact Hext|]. split; [|cbn; congruence].
      constructor; [|exact Hds].
      apply lookup_ge_None in Hl. lia.
Qed.

Lemma zero_le_clones (memo : list (loc * loc)) :
  Forall (fun p => (0 <= p.2)%nat) memo.
Proof. apply Forall_forall. intros. lia. Qed.

(** Every live reference of the source is matched by a reference to an object
    equal to the one it refers to. *)
Lemma copy_clones (h0 : list Rule) src : forall memo h ds h',
  (exists ext, h = h0 ++ ext) ->
  Forall (fun l => (l < length h0)%nat) src ->
  Forall (fun p => exists r, h0 !! p.1 = Some r /\ h !! p.2 = Some r) memo ->
  copy src memo h = (ds, h') ->
  Forall2 (fun s d => exists r, h0 !! s = Some r /\ h' !! d = Some r) src ds.
Proof.
  induction src as [|l src IH]; intros memo h ds h' Hprefix Hlive Hmemo Hcopy;
    cbn [copy] in Hcopy.
  { injection Hcopy as <- <-. constructor. }
  apply Forall_cons in Hlive as [Hl Hlive].
  destruct (cloneOf memo l) as [d|] eqn:Hclone.
  - destruct (copy src memo h) as [ds' h''] eqn:Htail.
    injection Hcopy as <- <-.
    destruct (copy_fresh 0 _ _ _ _ _ (Nat.le_0_l _) (zero_le_clones _) Htail)
      as ([ext ->] & _ & _).
    constructor; [|exact (IH _ _ _ _ Hprefix Hlive Hmemo Htail)].
    apply cloneOf_Some in Hclone.
    destruct (proj1 (Forall_forall _ _) Hmemo _ Hclone) as (r & Hr0 & Hr).
    exists r. split; [exact Hr0|]. apply lookup_app_l_Some, Hr.
  - destruct Hprefix as [ext0 ->].
    rewrite lookup_app_l in Hcopy by exact Hl.
    destruct (h0 !! l) as [rule|] eqn:Hrule;
      [|apply lookup_ge_None in Hrule; lia].
    destruct (copy src _ _) as [ds' h''] eqn:Htail.
    injection Hcopy as <- <-.
    destruct (copy_fresh 0 _ _ _ _ _ (Nat.le_0_l _) (zero_le_clones _) Htail)
      as ([ext Hext] & _ & _).
    constructor.
    + exists rule. split; [exact Hrule|]. rewrite Hext.
      apply lookup_app_l_Some. apply list_lookup_middle. reflexivity.
    + apply (IH ((l, length (h0 ++ ext0)) :: memo) ((h0 ++ ext0) ++ [rule]));
        [exists (ext0 ++ [rule]); symmetry; apply app_assoc|exact Hlive|
        |exact Htail].
      constructor.
      * exists rule. split; [exact Hrule|]. apply list_lookup_middle. reflexivity.
      * eapply Forall_impl; [exact Hmemo|].
        intros p (r & Hr0 & Hr). exists r. split; [exact Hr0|].
        apply lookup_app_l_Some, Hr.
Qed.

Lemma onChanges_rules c st ch :
  changes.validationRules c = Some ch ->
  exists st2 ds h,
    heap st2 = heap st
    /\ copy (defaultTo (changes.currentValue ch) []) [] (heap st) = (ds, h)
    /\ quiet (set_validationRules (Val ds) (set_heap h st2))
             (stateOf (onChanges c st)).
Proof.
  intros Hc. unfold onChanges, validationRulesChanged. rewrite Hc.
  set (st2 := isFocusedChanged c (inputValueChanged c st)).
  assert (Hheap : heap st2 = heap st).
  { subst st2. unfold isFocusedChanged, inputValueChanged.
    destruct (changes.inputValue c), (changes.isFocused c) as [chf|];
      try destruct (negb (changes.isFirstChange chf)); reflexivity. }
  clearbody st2. rewrite Hheap.
  destruct (copy _ _ _) as [ds h] eqn:Hcopy.
  exists st2, ds, h. split; [exact Hheap|]. split; [reflexivity|].
  destruct (_ && _); [apply validate_quiet|apply quiet_refl].
Qed.

Lemma onChanges_no_rules c st :
  changes.validationRules c = None ->
  heap (stateOf (onChanges c st)) = heap st
  /\ validationRules (stateOf (onChanges c st)) = validationRules st.
Proof.
  intros Hc.
  unfold onChanges, validationRulesChanged, isFocusedChanged, inputValueChanged.
  rewrite Hc.
  destruct (changes.inputValue c), (changes.isFocused c) as [chf|];
    try destruct (negb (changes.isFirstChange chf)); split; reflexivity.
Qed.

Lemma quiet_untouched n h0 st st' :
  quiet st st' -> untouched n h0 st -> untouched n h0 st'.
Proof.
  intros Hq (Hn & Hrules & Hheap). unfold untouched, rules in *.
  rewrite (quiet_length _ _ Hq), (quiet_validationRules _ _ Hq).
  split; [exact Hn|]. split; [exact Hrules|].
  intros l Hl. rewrite (quiet_heap _ _ Hq); [apply Hheap, Hl|].
  intros Hin. apply (proj1 (Forall_forall _ _) Hrules) in Hin. lia.
Qed.

Lemma same_store_untouched n h0 st st' :
  heap st' = heap st -> validationRules st' = validationRules st ->
  untouched n h0 st -> untouched n h0 st'.
Proof. unfold untouched, rules. intros -> ->. auto. Qed.

Lemma copied_untouched n h0 st st2 src ds h :
  heap st2 = heap st ->
  copy src [] (heap st) = (ds, h) ->
  (n <= length (heap st))%nat ->
  (forall l, (l < n)%nat -> heap st !! l = h0 !! l) ->
  untouched n h0 (set_validationRules (Val ds) (set_heap h st2)).
Proof.
  intros Hheap Hcopy Hn Hold.
  destruct (copy_fresh n _ _ _ _ _ Hn (Forall_nil_2 _) Hcopy)
    as ([ext ->] & Hfresh & _).
  unfold untouched, rules. cbn.
  split; [rewrite length_app; lia|]. split; [exact Hfresh|].
  intros l Hl. rewrite lookup_app_l by lia. apply Hold, Hl.
Qed.

Lemma assigned_heap c st : heap (assigned c st) = heap st.
Proof.
  unfold assigned.
  destruct (changes.isFocused c), (changes.validationRules c); reflexivity.
Qed.

(** [$onChanges], with the assignment of the bindings that precedes it. *)
Lemma onChanges_untouched n h0 c st :
  untouched n h0 st -> untouched n h0 (stateOf (onChanges c (assigned c st))).
Proof.
  intros Hst. destruct (changes.validationRules c) as [ch|] eqn:Hc.
  - destruct (onChanges_rules c (assigned c st) ch Hc)
      as (st2 & ds & h & Hheap & Hcopy & Hq).
    eapply quiet_untouched; [exact Hq|].
    destruct Hst as (Hn & _ & Hold).
    eapply copied_untouched; [exact Hheap|exact Hcopy| |];
      rewrite assigned_heap; assumption.
  - destruct (onChanges_no_rules c (assigned c st) Hc) as [Hh Hr].
    eapply same_store_untouched; [exact Hh|exact Hr|].
    apply (same_store_untouched n h0 st); [apply assigned_heap| |exact Hst].
    unfold assigned. rewrite Hc. destruct (changes.isFocused c); reflexivity.
Qed.

Lemma step_untouched n h0 e st :
  isBind e = false -> untouched n h0 st -> untouched n h0 (step e st).
Proof.
  intros Hbind H. destruct e; cbn [step]; try discriminate Hbind.
  - apply onChanges_untouched, H.
  - apply (same_store_untouched n h0 st); [| |exact H]; unfold onInit; cbn [stateOf];
      repeat match goal with |- context [if ?c then _ else _] => destruct c end;
      reflexivity.
  - apply (same_store_untouched n h0 st); [reflexivity|reflexivity|exact H].
  - apply (same_store_untouched n h0 st); [reflexivity|reflexivity|exact H].
  - eapply quiet_untouched; [apply clearInputField_quiet|exact H].
  - eapply quiet_untouched; [apply onBlur_quiet|exact H].
  - eapply quiet_untouched; [apply onChange_quiet|exact H].
  - eapply quiet_untouched; [apply onFocus_quiet|exact H].
  - eapply quiet_untouched; [apply onKeyDown_quiet|exact H].
  - apply (same_store_untouched n h0 st); [| |exact H];
      unfold toggleValidationPopUp; destruct (rules st); try reflexivity;
      destruct (isValidationPopUpShown st); reflexivity.
  - generalize (documentClickListeners st). intros k.
    induction k as [|k IH]; cbn [Nat.iter]; [exact H|].
    eapply same_store_untouched; [| |exact IH]; unfold handleDocumentClick;
      destruct (targetInside event); cbn;
      try destruct (isValidationPopUpShown _); reflexivity.
  - destruct (timers st !! i) as [t|]; [|exact H].
    eapply quiet_untouched; [|exact H].
    eapply quiet_trans; [|apply runTask_quiet]. quiet_fields.
  - eapply quiet_untouched; [apply setViewValue_quiet|exact H].
  - eapply quiet_untouched; [apply commitViewValue_quiet|exact H].
  - eapply quiet_untouched; [apply digest_quiet|exact H].
Qed.

Lemma run_untouched n h0 es : forall st,
  forallb (fun e => negb (isBind e)) es = true ->
  untouched n h0 st -> untouched n h0 (run es st).
Proof.
  induction es as [|e es IH]; intros st Hes H; [exact H|].
  cbn [forallb] in Hes. apply andb_prop in Hes as [He Hes].
  apply IH; [exact Hes|]. apply step_untouched; [|exact H].
  destruct (isBind e); [discriminate|reflexivity].
Qed.

(** What the copy achieves.  When [$onChanges] runs for a change of the bound
    list of rules, [ctrl.validationRules] becomes an array of objects none of
    which existed before: each is equal, apart from its validity flag, to the
    object at the same place of the bound list; no object that existed
    before is altered by [$onChanges], nor by anything that the component
    does afterwards, until the framework assigns the binding again; and a
    bound list that is [null] or [undefined] gives the empty array. *)
Lemma onChanges_copies (c : changes.t) (st : State)
    (ch : changes.change (list loc)) :
  changes.validationRules c = Some ch ->
  let src := defaultTo (changes.currentValue ch) [] in
  Forall (fun l => (l < length (heap st))%nat) src ->
  let st' := stateOf (onChanges c st) in
  exists ds,
    validationRules st' = Val ds
    /\ Forall (fun d => (length (heap st) <= d)%nat) ds
    /\ Forall2 (fun s d => exists r r',
                  heap st !! s = Some r /\ heap st' !! d = Some r'
                  /\ content r' = content r) src ds
    /\ (forall es l,
          forallb (fun e => negb (isBind e)) es = true ->
          (l < length (heap st))%nat ->
          heap (run es st') !! l = heap st !! l)
    /\ match changes.currentValue ch with
       | Val _ => True
       | Undefined | Null => ds = []
       end.
Proof.
  intros Hc src Hlive st'.
  destruct (onChanges_rules c st ch Hc) as (st2 & ds & h & Hheap & Hcopy & Hq).
  fold src in Hcopy. fold st' in Hq.
  destruct (copy_fresh (length (heap st)) _ _ _ _ _ (Nat.le_refl _)
              (Forall_nil_2 _) Hcopy) as (_ & Hfresh & Hlen).
  exists ds. split; [rewrite (quiet_validationRules _ _ Hq); reflexivity|].
  split; [exact Hfresh|]. split; [|split].
  - pose proof (copy_clones (heap st) src [] (heap st) ds h
                  (ex_intro _ [] (eq_sym (app_nil_r _))) Hlive
                  (Forall_nil_2 _) Hcopy) as Hclones.
    eapply Forall2_impl; [exact Hclones|].
    intros s d (r & Hs & Hd). pose proof (quiet_content _ _ Hq d) as Hcontent.
    cbn [heap set_validationRules set_heap] in Hcontent. rewrite Hd in Hcontent.
    destruct (heap st' !! d) as [r'|]; [|discriminate].
    exists r, r'. repeat split; [exact Hs|].
    cbn in Hcontent. unfold content in *. congruence.
  - intros es l Hes Hl.
    assert (Hun : untouched (length (heap st)) (heap st) st').
    { eapply quiet_untouched; [exact Hq|].
      eapply copied_untouched; eauto. }
    destruct (run_untouched _ _ es st' Hes Hun) as (_ & _ & Hold).
    apply Hold, Hl.
  - subst src. destruct (changes.currentValue ch); cbn in Hlen; try exact I;
      destruct ds; [reflexivity|discriminate|reflexivity|discriminate].
Qed.

(** ** What is displayed *)

Lemma validationRulesValidator_result modelValue st :
  (validationRulesValidator modelValue st).2 =
    (negb (is_true (validationIsRequired (bindings st)))
     && String.eqb (data st) "")
    || forallb (fun p => negb (isFalse (evaluate st modelValue p.2)))
               (ruleObjects st).
Proof.
  unfold validationRulesValidator. destruct (_ && _); [reflexivity|].
  apply checkPatternsValidity_no_failure.
Qed.

(** C3, as the code has it.  The validator answers [true] exactly when the
    field is not required and its value is empty, or no rule evaluates to
    [false]; after validation the model is valid when the other validators
    accept as well; and the field is displayed as invalid exactly when
    [onlyValidCharacters] is off, the form was submitted or the field is
    dirty, and the model is invalid. *)
Theorem isFieldInvalid_displayed (st : State) (modelValue : string) :
  (validationRulesValidator modelValue st).2 =
    (negb (is_true (validationIsRequired (bindings st)))
     && String.eqb (data st) "")
    || forallb (fun p => negb (isFalse (evaluate st modelValue p.2)))
               (ruleObjects st)
  /\ valid (runValidators modelValue st) =
       (fun nm => (validationRulesValidator modelValue st).2
                  && forallb (fun v => v modelValue) (ng_validators nm))
       <$> ngModel st
  /\ truthy (isFieldInvalid st) =
       negb (is_true (onlyValidCharacters (bindings st)))
       && (default false (submitted <$> formObject (bindings st))
           || default false (ng_dirty <$> ngModel st))
       && default false (invalid st).
Proof.
  split; [apply validationRulesValidator_result|]. split.
  - unfold valid. destruct (ngModel st) as [nm|] eqn:Hng.
    + rewrite (runValidators_ngModel _ _ _ Hng). reflexivity.
    + unfold runValidators.
      pose proof (erase_eq _ _ (validationRulesValidator_erase modelValue st)) as He.
      destruct (validationRulesValidator modelValue st) as [st' own].
      cbn [fst] in He. rewrite He. cbn. rewrite Hng. cbn. rewrite Hng.
      reflexivity.
  - unfold isFieldInvalid, invalid, valid, get, js_and, js_or.
    destruct (is_true (onlyValidCharacters (bindings st))); [reflexivity|].
    destruct (formObject (bindings st)) as [[[]]|];
      destruct (ngModel st) as [[? ? ? [] [] ?]|]; reflexivity.
Qed.

(** C3, counterexample.  The component is rendered with the value "abc",
    which fails the first rule: the value is not empty, the validator has
    answered [false] and the model is invalid; but the field is pristine and
    no form was submitted, so it is not displayed as invalid. *)
Lemma isFieldInvalid_pristine :
  reachable (rendering noAttributes "abc")
  /\ data (rendering noAttributes "abc") = "abc"%string
  /\ (validationRulesValidator "abc" (rendering noAttributes "abc")).2 = false
  /\ hasInvalidRule (rendering noAttributes "abc") = true
  /\ valid (rendering noAttributes "abc") = Some false
  /\ isFieldInvalid (rendering noAttributes "abc") = JBool false.
Proof.
  split; [|repeat apply conj; vm_compute; reflexivity].
  exists noAttributes, hostRules,
    [EOnChanges (firstChanges "abc"); EOnInit; EPostLink;
     ETimer 0 (browser "abc")].
  reflexivity.
Qed.


(** ** Reverting to the last valid value *)












(** ** The statements at work on the example field *)

Ltac by_computation := vm_compute; first [reflexivity | discriminate].

(** C1 on the example: "abc" fails the first rule and passes the second,
    which is called with the value and the name of the field. *)
Lemma validationRulesValidator_conjunction_witness :
  data (rendering noAttributes "ABC") <> ""%string
  /\ (validationRulesValidator "abc" (rendering noAttributes "ABC")).2 = false
  /\ map (fun p => isValid p.2)
       (ruleObjects (validationRulesValidator "abc" (rendering noAttributes "ABC")).1)
     = [JBool false; JBool true].
Proof.
  assert (H1 : data (rendering noAttributes "ABC") <> ""%string)
    by by_computation.
  split; [exact H1|].
  destruct (validationRulesValidator_conjunction
              (rendering noAttributes "ABC") "abc" H1)
    as (Hresult & _ & Hobjects & _).
  rewrite Hresult, Hobjects. split; by_computation.
Defined.

(** C1, counterexample.  The second rule of this host is a function that
    returns nothing.  With the value "ABC" the first rule evaluates to [true]
    and the second to [undefined]: the conjunction of the two is not true,
    and yet the validator answers [true], since no rule is left with
    [isValid] equal to [false]. *)
Lemma validationRulesValidator_undefined_passes :
  data careless = "ABC"%string
  /\ map (fun p => isValid p.2)
       (ruleObjects (validationRulesValidator "ABC" careless).1)
     = [JBool true; JUndefined]
  /\ truthy (js_and (JBool true) JUndefined) = false
  /\ forallb (fun p => truthy (isValid p.2))
       (ruleObjects (validationRulesValidator "ABC" careless).1) = false
  /\ hasInvalidRule (validationRulesValidator "ABC" careless).1 = false
  /\ (validationRulesValidator "ABC" careless).2 = true.
Proof. repeat apply conj; vm_compute; reflexivity. Qed.

(** C2 on the example: rendered empty, both rules are marked valid. *)
Lemma validationRulesValidator_optional_empty_witness :
  Forall (fun p => isValid p.2 = JBool true)
    (ruleObjects (validationRulesValidator "" (rendering noAttributes "")).1).
Proof.
  assert (H1 : is_true (validationIsRequired
                          (bindings (rendering noAttributes ""))) = false)
    by by_computation.
  assert (H2 : data (rendering noAttributes "") = ""%string) by by_computation.
  apply (validationRulesValidator_optional_empty
           (rendering noAttributes "") "" H1 H2).
Defined.


(** C5 on the example: "abc" is invalid, the snapshot stays "ABC". *)
Lemma onChange_protocol_witness :
  exists st',
    onChange lowered = Normal st' /\ lastValidValue st' = "ABC"%string.
Proof.
  assert (H1 : ngModel lowered
               = Some (default (pristineField "") (ngModel lowered)))
    by by_computation.
  destruct (onChange_protocol lowered _ H1)
    as (st' & evs & Hrun & _ & _ & _ & _ & _ & H).
  exists st'. split; [exact Hrun|].
  assert (H2 : is_true (isDataRevert (bindings lowered)) = true)
    by by_computation.
  rewrite H2 in H. destruct H as [_ ->]. by_computation.
Defined.

(** C7 on the example: open, then close, leaves no listener. *)
Lemma toggleValidationPopUp_listener_witness :
  reachable (rendering noAttributes "ABC")
  /\ documentClickListeners
       (toggleValidationPopUp
          (toggleValidationPopUp (rendering noAttributes "ABC"))) = 0%nat.
Proof.
  assert (Hreach : reachable (rendering noAttributes "ABC")).
  { exists noAttributes, hostRules,
      [EOnChanges (firstChanges "ABC"); EOnInit; EPostLink;
       ETimer 0 (browser "ABC")].
    reflexivity. }
  split; [exact Hreach|].
  destruct (toggleValidationPopUp_listener _ Hreach) as (_ & _ & Hopen & _).
  apply Hopen; by_computation.
Defined.

(** C8 on the example: the first change brings "ABC". *)
Lemma onChanges_inputValue_witness :
  data (stateOf (onChanges (firstChanges "ABC") (controller noAttributes hostRules)))
    = "ABC"%string.
Proof.
  apply (onChanges_inputValue (firstChanges "ABC")
           (controller noAttributes hostRules)
           {| changes.currentValue := Val "ABC"%string;
              changes.isFirstChange := true |} eq_refl).
Defined.

(** C9 on the example: "checkbox" and "never" fall back. *)
Lemma onInit_unrecognized_witness :
  exists st',
    onInit malformed = Normal st'
    /\ selectedFieldType st' = "input"%string
    /\ bordersMode (bindings st') = Some "always"%string.
Proof.
  assert (H1 : selectedFieldType malformed = "input"%string) by by_computation.
  assert (H2 : includes FIELD_TYPES (fieldType (bindings malformed)) = false)
    by by_computation.
  assert (H3 : includes BORDER_MODES (bordersMode (bindings malformed)) = false)
    by by_computation.
  destruct (onInit_unrecognized malformed H1 (or_introl H2))
    as (st' & Hrun & Hft & Hbm & _).
  rewrite H2 in Hft. rewrite H3 in Hbm.
  exists st'. auto.
Defined.


(** * Further properties of the controller *)

(** ** What validating and committing leave alone *)

Lemma modelOnly_refl st : modelOnly st st.
Proof. destruct st. reflexivity. Qed.

Lemma modelOnly_trans st1 st2 st3 :
  modelOnly st1 st2 -> modelOnly st2 st3 -> modelOnly st1 st3.
Proof.
  unfold modelOnly. destruct st1, st2, st3. cbn.
  intros [= -> -> -> -> -> -> -> -> -> -> ->] [= -> -> -> -> -> -> -> -> -> -> ->].
  reflexivity.
Qed.

Lemma modelOnly_andThen st c k :
  modelOnly st (stateOf c) ->
  (forall s, c = Normal s -> modelOnly s (stateOf (k s))) ->
  modelOnly st (stateOf (andThen c k)).
Proof.
  intros Hc Hk. destruct c as [s|s]; cbn in *; [|exact Hc].
  eapply modelOnly_trans; [exact Hc|apply Hk; reflexivity].
Qed.

Lemma runValidators_modelOnly modelValue st :
  modelOnly st (runValidators modelValue st).
Proof.
  pose proof (runValidators_shape modelValue st) as H.
  unfold modelOnly. set (st' := runValidators modelValue st) in *.
  clearbody st'. destruct st, st'. cbn in *.
  injection H as -> -> -> -> -> -> -> -> -> -> -> -> ->. reflexivity.
Qed.

Ltac model_fields :=
  unfold modelOnly;
  repeat match goal with s : State |- _ => destruct s end;
  reflexivity.

Lemma validate_modelOnly st : modelOnly st (stateOf (validate st)).
Proof.
  unfold validate. destruct (ngModel st); cbn [stateOf];
    [apply runValidators_modelOnly|apply modelOnly_refl].
Qed.

Lemma onChange_modelOnly st : modelOnly st (stateOf (onChange st)).
Proof.
  unfold onChange. apply modelOnly_andThen; [apply validate_modelOnly|].
  intros s _. destruct (is_true _); [destruct (valid s) as [[]|]|];
    cbn [stateOf]; try apply modelOnly_refl; unfold emit; model_fields.
Qed.

Lemma commitViewValue_modelOnly st : modelOnly st (stateOf (commitViewValue st)).
Proof.
  unfold commitViewValue. destruct (ngModel st) as [nm|]; [|apply modelOnly_refl].
  destruct (String.eqb _ _); [apply modelOnly_refl|].
  apply modelOnly_andThen.
  - destruct (String.eqb _ _); cbn [stateOf]; [model_fields|].
    eapply modelOnly_trans; [|apply onChange_modelOnly]. model_fields.
  - intros s _. apply runValidators_modelOnly.
Qed.

Lemma setOrRevertInputValue_modelOnly st :
  modelOnly st (stateOf (setOrRevertInputValue st)).
Proof.
  unfold setOrRevertInputValue.
  destruct (invalid st) as [[]|]; cbn [stateOf];
    try apply modelOnly_refl; unfold emit; model_fields.
Qed.

Lemma setViewValue_modelOnly value st :
  modelOnly st (stateOf (setViewValue value st)).
Proof.
  unfold setViewValue. destruct (ngModel st); [model_fields|apply modelOnly_refl].
Qed.

Lemma clearInputField_modelOnly st : modelOnly st (stateOf (clearInputField st)).
Proof.
  unfold clearInputField. destruct (String.eqb _ _).
  - apply modelOnly_andThen; [apply setViewValue_modelOnly|].
    intros s _. apply commitViewValue_modelOnly.
  - eapply modelOnly_trans; [|apply onChange_modelOnly]. model_fields.
Qed.

Lemma digest_modelOnly st : modelOnly st (digest st).
Proof.
  unfold digest. destruct (ngModel st); [|apply modelOnly_refl].
  destruct (String.eqb _ _); [apply modelOnly_refl|].
  destruct (String.eqb _ _); [model_fields|].
  eapply modelOnly_trans; [|apply runValidators_modelOnly]. model_fields.
Qed.

(** A blur changes, besides what committing may change, the two flags of the
    focus. *)
Lemma onBlur_fields event st :
  exists st0,
    modelOnly st0 (stateOf (onBlur event st))
    /\ st0 = set_inputFocused (preventInputBlur st) (set_preventInputBlur false st).
Proof.
  unfold onBlur. destruct (preventInputBlur st) eqn:Hp.
  - eexists. split; [|reflexivity]. cbn [stateOf]. unfold emit. model_fields.
  - eexists. split; [|reflexivity].
    apply modelOnly_andThen.
    + eapply modelOnly_trans; [|apply commitViewValue_modelOnly].
      unfold modelOnly. destruct st. cbn in *. subst. reflexivity.
    + intros s _. apply modelOnly_andThen.
      * destruct (is_true _);
          [apply setOrRevertInputValue_modelOnly|apply modelOnly_refl].
      * intros s' _. cbn [stateOf]. unfold emit. model_fields.
Qed.

(** ** Focus, blur and the flags they keep *)

(** X1.  After any blur the flag that holds a blur back is cleared, and the
    field counts as focused exactly when the blur was held back; so two
    blurs in a row are never both held back.  A blur that is held back
    leaves the value, the snapshot, the model and the rules as they are and
    only gives the focus back to the target of the event. *)
Theorem onBlur_flags (event : DomEvent) (st : State) :
  let st' := stateOf (onBlur event st) in
  preventInputBlur st' = false
  /\ inputFocused st' = preventInputBlur st
  /\ inputIsTouched st' = inputIsTouched st
  /\ timers st' = timers st
  /\ (preventInputBlur st = true ->
      onBlur event st = Normal st'
      /\ data st' = data st
      /\ lastValidValue st' = lastValidValue st
      /\ ngModel st' = ngModel st
      /\ heap st' = heap st
      /\ log st' = log st ++ [TargetFocus event]).
Proof.
  intros st'. destruct (onBlur_fields event st) as (st0 & Hm & ->).
  fold st' in Hm. unfold modelOnly in Hm.
  repeat split; try (rewrite Hm; reflexivity).
  all: subst st'; unfold onBlur; rewrite H; reflexivity.
Qed.

Lemma runTask_inputIsTouched t env st :
  inputIsTouched (stateOf (runTask t env st)) = inputIsTouched st.
Proof.
  destruct t; cbn [runTask].
  - pose proof (validate_modelOnly (set_ngModel (Some (fieldController env)) st)) as Hm.
    destruct (validate _) as [s|s]; cbn [andThen stateOf] in *;
      try destruct (is_true _); rewrite Hm; reflexivity.
  - unfold focusField. destruct (ngModel st); reflexivity.
  - unfold focusField. destruct (ngModel st); reflexivity.
  - reflexivity.
Qed.

Lemma onChanges_inputIsTouched c st :
  inputIsTouched (stateOf (onChanges c st)) = inputIsTouched st.
Proof.
  unfold onChanges, validationRulesChanged, isFocusedChanged, inputValueChanged.
  destruct (changes.inputValue c) as [chv|];
    destruct (changes.isFocused c) as [chf|];
    destruct (changes.validationRules c) as [chr|];
    try destruct (negb (changes.isFirstChange chf));
    try destruct (copy _ _ _) as [ds h];
    try match goal with
        |- context [if ?c then validate ?s else _] =>
          destruct c; [rewrite (validate_modelOnly s)|]
        end;
    reflexivity.
Qed.

(** X2.  The field becomes touched by a focus event while rules are
    configured, and by nothing else; no event ever makes it untouched
    again. *)
Theorem step_inputIsTouched (e : Event) (st : State) :
  inputIsTouched (step e st) =
    match e with
    | EFocus _ => inputIsTouched st || negb (bool_decide (rules st = []))
    | _ => inputIsTouched st
    end.
Proof.
  destruct e; cbn [step].
  - rewrite onChanges_inputIsTouched. unfold assigned.
    destruct (changes.isFocused c), (changes.validationRules c); reflexivity.
  - unfold onInit. cbn [stateOf].
    repeat match goal with |- context [if ?c then _ else _] => destruct c end;
      reflexivity.
  - reflexivity.
  - reflexivity.
  - rewrite (clearInputField_modelOnly st). reflexivity.
  - destruct (onBlur_fields event st) as (st0 & Hm & ->).
    rewrite Hm. reflexivity.
  - rewrite (onChange_modelOnly st). reflexivity.
  - unfold onFocus. cbn. unfold rules. cbn.
    destruct (defaultTo (validationRules st) []); cbn;
      [rewrite orb_false_r|rewrite orb_true_r]; reflexivity.
  - unfold onKeyDown. destruct (_ =? _); reflexivity.
  - unfold toggleValidationPopUp. destruct (rules st); [reflexivity|].
    destruct (isValidationPopUpShown st); reflexivity.
  - generalize (documentClickListeners st). intros n.
    induction n as [|n IH]; cbn [Nat.iter]; [reflexivity|].
    rewrite <- IH. unfold handleDocumentClick.
    destruct (targetInside event); cbn;
      try destruct (isValidationPopUpShown _); reflexivity.
  - destruct (timers st !! i); [|reflexivity].
    rewrite runTask_inputIsTouched. reflexivity.
  - rewrite (setViewValue_modelOnly value st). reflexivity.
  - rewrite (commitViewValue_modelOnly st). reflexivity.
  - rewrite (digest_modelOnly st). reflexivity.
  - unfold assigned.
    destruct (changes.isFocused c), (changes.validationRules c); reflexivity.
Qed.

(** ** The effective type of the field *)

Lemma onChanges_selectedFieldType c st :
  selectedFieldType (stateOf (onChanges c st)) = selectedFieldType st.
Proof.
  unfold onChanges, validationRulesChanged, isFocusedChanged, inputValueChanged.
  destruct (changes.inputValue c) as [chv|];
    destruct (changes.isFocused c) as [chf|];
    destruct (changes.validationRules c) as [chr|];
    try destruct (negb (changes.isFirstChange chf));
    try destruct (copy _ _ _) as [ds h];
    try match goal with
        |- context [if ?c then validate ?s else _] =>
          destruct c; [rewrite (validate_modelOnly s)|]
        end;
    reflexivity.
Qed.

Lemma handleDocumentClick_selectedFieldType event st :
  selectedFieldType (handleDocumentClick event st) = selectedFieldType st.
Proof.
  unfold handleDocumentClick.
  destruct (targetInside event); cbn;
    try destruct (isValidationPopUpShown st); reflexivity.
Qed.

Lemma step_fieldType_known e st :
  includes FIELD_TYPES (Some (selectedFieldType st)) = true ->
  includes FIELD_TYPES (Some (selectedFieldType (step e st))) = true.
Proof.
  intros H. destruct e; cbn [step].
  - rewrite onChanges_selectedFieldType. unfold assigned.
    destruct (changes.isFocused c), (changes.validationRules c); exact H.
  - destruct (onInit_effective st) as (-> & _).
    destruct (includes FIELD_TYPES
                (Some (default (selectedFieldType st) (fieldType (bindings st)))))
      eqn:Hft; [exact Hft|exact H].
  - exact H.
  - exact H.
  - rewrite (quiet_fieldType _ _ (clearInputField_quiet st)). exact H.
  - rewrite (quiet_fieldType _ _ (onBlur_quiet event st)). exact H.
  - rewrite (quiet_fieldType _ _ (onChange_quiet st)). exact H.
  - rewrite (quiet_fieldType _ _ (onFocus_quiet event st)). exact H.
  - rewrite (quiet_fieldType _ _ (onKeyDown_quiet event st)). exact H.
  - unfold toggleValidationPopUp. destruct (rules st); [exact H|].
    destruct (isValidationPopUpShown st); exact H.
  - generalize (documentClickListeners st). intros n.
    induction n as [|n IH]; [exact H|].
    change (Nat.iter (S n) (handleDocumentClick event) st)
      with (handleDocumentClick event (Nat.iter n (handleDocumentClick event) st)).
    rewrite handleDocumentClick_selectedFieldType. exact IH.
  - destruct (timers st !! i) as [t|]; [|exact H].
    rewrite (quiet_fieldType _ _ (runTask_quiet t env _)). exact H.
  - rewrite (quiet_fieldType _ _ (setViewValue_quiet value st)). exact H.
  - rewrite (quiet_fieldType _ _ (commitViewValue_quiet st)). exact H.
  - rewrite (quiet_fieldType _ _ (digest_quiet st)). exact H.
  - unfold assigned.
    destruct (changes.isFocused c), (changes.validationRules c); exact H.
Qed.

(** X3.  In every state the component can reach, the effective type of the
    field is one of the four known types, whatever [fieldType] was bound. *)
Theorem reachable_fieldType_known (st : State) :
  reachable st -> includes FIELD_TYPES (Some (selectedFieldType st)) = true.
Proof.
  intros (b & h & es & ->).
  assert (Hinit : includes FIELD_TYPES
                    (Some (selectedFieldType (controller b h))) = true)
    by reflexivity.
  revert Hinit. generalize (controller b h).
  induction es as [|e es IH]; intros st H; [exact H|].
  apply IH, step_fieldType_known, H.
Qed.

(** ** Deferred callbacks *)

(** X4.  The Enter key does not call the enter callback at once: the call is
    queued, and when the queued task runs the callback is called once and
    nothing else has changed.  Any other key changes nothing. *)
Theorem onKeyDown_enter (event : DomEvent) (env : Browser) (st : State) :
  (keyCode event = ENTER ->
     log (onKeyDown event st) = log st
     /\ timers (onKeyDown event st) = timers st ++ [TEnter]
     /\ step (ETimer (length (timers st)) env) (onKeyDown event st)
        = emit EnterCallback st)
  /\ (keyCode event <> ENTER -> onKeyDown event st = st).
Proof.
  unfold onKeyDown. split.
  - intros ->. rewrite Z.eqb_refl. repeat split.
    cbn [step defer timers set_timers].
    rewrite list_lookup_middle by reflexivity.
    cbn [runTask stateOf].
    assert (Hdel : delete (length (timers st)) (timers st ++ [TEnter]) = timers st).
    { induction (timers st) as [|t ts IH]; [reflexivity|].
      cbn. f_equal. exact IH. }
    rewrite Hdel. destruct st. reflexivity.
  - intros Hne. destruct (Z.eqb_spec (keyCode event) ENTER); [contradiction|].
    reflexivity.
Qed.

(** X5.  Opening the pop-up first places it below the field; when the queued
    measurement runs on a linked field, the field gets the focus and the
    pop-up is moved above the field exactly when the window has no room for
    it below.  The pop-up stays shown with its one listener attached. *)
Theorem toggleValidationPopUp_placement (env : Browser) (st : State)
    (nm : NgModel) :
  rules st <> [] ->
  isValidationPopUpShown st = false ->
  ngModel st = Some nm ->
  let opened := toggleValidationPopUp st in
  let placed := step (ETimer (length (timers st)) env) opened in
  showPopUpOnTop opened = false
  /\ log opened = log st
  /\ showPopUpOnTop placed
     = (innerHeight env <? popUpTop env + popUpOuterHeight env)
  /\ inputFocused placed = true
  /\ log placed = log st ++ [FieldFocus]
  /\ timers placed = timers st
  /\ isValidationPopUpShown placed = true
  /\ documentClickListeners placed = S (documentClickListeners st).
Proof.
  intros Hr Hs Hng opened placed. subst placed opened.
  rewrite (toggleValidationPopUp_open st Hr Hs).
  cbn [step defer timers set_timers set_showPopUpOnTop documentOn
       set_documentClickListeners set_isValidationPopUpShown].
  rewrite list_lookup_middle by reflexivity.
  assert (Hdel : delete (length (timers st)) (timers st ++ [TPlacePopUp]) = timers st).
  { induction (timers st) as [|t ts IH]; [reflexivity|].
    cbn. f_equal. exact IH. }
  rewrite Hdel. cbn [runTask]. unfold focusField. cbn. rewrite Hng. cbn.
  repeat split.
  destruct (Z.ltb_spec (innerHeight env - popUpTop env - popUpOuterHeight env) 0),
           (Z.ltb_spec (innerHeight env) (popUpTop env + popUpOuterHeight env));
    try reflexivity; lia.
Qed.

(** X6.  A click inside the component while the pop-up is shown changes
    nothing: the pop-up stays open and the listener stays attached. *)
Theorem documentClick_inside (event : DomEvent) (st : State) :
  targetInside event = true ->
  isValidationPopUpShown st = true ->
  step (EDocumentClick event) st = st.
Proof.
  intros Hin Hs. cbn [step]. generalize (documentClickListeners st). intros n.
  induction n as [|n IH]; [reflexivity|].
  change (Nat.iter (S n) (handleDocumentClick event) st)
    with (handleDocumentClick event (Nat.iter n (handleDocumentClick event) st)).
  rewrite IH. unfold handleDocumentClick. rewrite Hin. cbn [negb].
  rewrite Hs. reflexivity.
Qed.

(** ** The counter of remaining characters, continued *)

(** X7.  The counter is [null] exactly when the maximal length parses to an
    integer that is not positive; for a positive limit below 2^53, where
    JavaScript computes with integers exactly, it is the decimal text of the
    limit minus the length of the value. *)
Theorem getRemainingCharactersCount_null (st : State) :
  (getRemainingCharactersCount st = None
   <-> exists m, parseInt (validationMaxLength (bindings st)) = Some m /\ m <= 0)
  /\ (forall m, parseInt (validationMaxLength (bindings st)) = Some m ->
      0 < m -> m < 2 ^ 53 ->
      getRemainingCharactersCount st
      = Some (NilZero.string_of_int
                (Z.to_int (m - Z.of_nat (String.length (data st)))))).
Proof.
  split.
  - destruct (parseInt (validationMaxLength (bindings st))) as [m|] eqn:Hm.
    + destruct (Z.le_gt_cases m 0) as [Hle|Hgt].
      * rewrite (getRemainingCharactersCount_not_positive st m Hm Hle).
        split; [|reflexivity]. intros _. exists m. auto.
      * rewrite (getRemainingCharactersCount_positive st m Hm Hgt).
        split; [discriminate|].
        intros (m' & Heq & Hle). injection Heq as <-. lia.
    + rewrite (getRemainingCharactersCount_not_a_number st Hm).
      split; [discriminate|]. intros (m & Heq & _). discriminate.
  - intros m Hm Hpos _.
    apply (getRemainingCharactersCount_positive st m Hm Hpos).
Qed.

(** ** The validator, continued *)

Lemma ruleObjects_ext st st' :
  heap st' = heap st -> validationRules st' = validationRules st ->
  ruleObjects st' = ruleObjects st.
Proof. unfold ruleObjects, rules. intros -> ->. reflexivity. Qed.

Lemma hasInvalidRule_ext st st' :
  heap st' = heap st -> validationRules st' = validationRules st ->
  hasInvalidRule st' = hasInvalidRule st.
Proof. unfold hasInvalidRule, rules. intros -> ->. reflexivity. Qed.

Lemma resetPatternsValidity_no_failure st :
  hasInvalidRule (resetPatternsValidity st) = false.
Proof.
  rewrite hasInvalidRule_ruleObjects, resetPatternsValidity_ruleObjects.
  induction (ruleObjects st) as [|p ps IH]; [reflexivity|exact IH].
Qed.

Lemma verdict_hasInvalidRule modelValue st :
  (validationRulesValidator modelValue st).2
  = negb (hasInvalidRule (validationRulesValidator modelValue st).1).
Proof.
  unfold validationRulesValidator. destruct (_ && _); cbn [fst snd];
    [rewrite resetPatternsValidity_no_failure|]; reflexivity.
Qed.

(** X8.  Whatever branch the validator takes, its verdict agrees with
    [hasInvalidRule] on the state it leaves: it accepts exactly when no rule
    is left marked as failed. *)
Theorem validationRulesValidator_verdict (modelValue : string) (st : State) :
  (validationRulesValidator modelValue st).2
  = negb (hasInvalidRule (validationRulesValidator modelValue st).1).
Proof.
  unfold validationRulesValidator. destruct (_ && _); cbn [fst snd].
  - rewrite resetPatternsValidity_no_failure. reflexivity.
  - reflexivity.
Qed.

(** X10.  The validator of the component changes nothing but the validity
    flags of the rules it is given and the log.  Every other field of the
    controller stays as it is, the value, the snapshot and the model
    controller among them; the store keeps its size; no rule object changes
    its name or its label, and an object outside [ctrl.validationRules] does
    not change at all; and nothing but rule evaluations is logged: the
    validator calls no callback of the host. *)
Theorem validationRulesValidator_frame (modelValue : string) (st : State) :
  let st' := (validationRulesValidator modelValue st).1 in
  st' = set_heap (heap st') (set_log (log st') st)
  /\ length (heap st') = length (heap st)
  /\ (forall l, (fun r => (name r, label r)) <$> heap st' !! l
                = (fun r => (name r, label r)) <$> heap st !! l)
  /\ (forall l, l ∉ rules st -> heap st' !! l = heap st !! l)
  /\ exists evs, log st' = log st ++ evs /\ forallb isEvaluation evs = true.
Proof.
  intros st'.
  pose proof (validationRulesValidator_quiet modelValue st) as Hq. fold st' in Hq.
  split; [apply erase_eq, validationRulesValidator_erase|].
  split; [apply (quiet_length _ _ Hq)|].
  split; [|split; [apply (quiet_heap _ _ Hq)
                  |apply validationRulesValidator_evaluations]].
  intros l. pose proof (quiet_content _ _ Hq l) as Hc.
  destruct (heap st' !! l) as [r'|], (heap st !! l) as [r|];
    cbn in *; try discriminate; [|reflexivity].
  unfold content in Hc. congruence.
Qed.

(** X11.  Linking validates the initial value: when the deferred part of
    [postLink] runs, the model handed over by the browser is validated on its
    model value, so the rules are marked and [hasInvalidRule] reports the
    verdict although the field keeps its dirty flag; the focus is requested
    only when [isFocused] is set. *)
Theorem runTask_link (env : Browser) (st : State) :
  let linked := set_ngModel (Some (fieldController env)) st in
  let modelValue := ng_modelValue (fieldController env) in
  let verdict := (validationRulesValidator modelValue linked).2 in
  exists st',
    runTask TLink env st = Normal st'
    /\ ngModel st'
       = Some (set_ng_valid
                 (verdict
                  && forallb (fun v => v modelValue)
                       (ng_validators (fieldController env)))
                 (fieldController env))
    /\ hasInvalidRule st' = negb verdict
    /\ data st' = data st
    /\ timers st'
       = timers st ++ (if is_true (isFocused (bindings st))
                       then [TFocusField] else []).
Proof.
  intros linked modelValue verdict. cbn [runTask]. fold linked.
  unfold validate. change (ngModel linked) with (Some (fieldController env)).
  cbn [andThen]. fold modelValue.
  pose proof (runValidators_ngModel modelValue linked _ eq_refl) as Hng.
  pose proof (runValidators_shape modelValue linked) as Hshape.
  pose proof (runValidators_heap modelValue linked) as Hheap.
  set (st1 := runValidators modelValue linked) in *.
  assert (Hb : bindings st1 = bindings st) by (rewrite Hshape; reflexivity).
  assert (Hinv : hasInvalidRule st1 = negb verdict).
  { subst verdict. rewrite verdict_hasInvalidRule, negb_involutive.
    apply hasInvalidRule_ext; [exact Hheap|].
    rewrite Hshape. cbn.
    rewrite (erase_eq _ _ (validationRulesValidator_erase modelValue linked)).
    reflexivity. }
  rewrite Hb. eexists. split; [reflexivity|].
  destruct (is_true (isFocused (bindings st)));
    (split; [exact Hng|]); (split; [exact Hinv|]);
    split; try (rewrite Hshape; reflexivity);
    rewrite ?app_nil_r; cbn; rewrite Hshape; reflexivity.
Qed.

(** ** Notifying the host *)

Lemma onChange_notify st nm :
  ngModel st = Some nm ->
  is_true (isDataRevert (bindings st)) = false ->
  exists evs,
    onChange st
    = Normal (emit (UpdateDataCallback (data st) (updateDataField (bindings st)))
                (runValidators (ng_modelValue nm) st))
    /\ log (runValidators (ng_modelValue nm) st) = log st ++ evs
    /\ forallb isEvaluation evs = true.
Proof.
  intros Hng Hrev.
  destruct (runValidators_evaluations (ng_modelValue nm) st) as (evs & Hlog & Hevs).
  exists evs. split; [|auto].
  unfold onChange, validate. rewrite Hng. cbn [andThen].
  pose proof (runValidators_shape (ng_modelValue nm) st) as Hs.
  set (st1 := runValidators (ng_modelValue nm) st) in *.
  assert (Hb : bindings st1 = bindings st) by (rewrite Hs; reflexivity).
  assert (Hd : data st1 = data st) by (rewrite Hs; reflexivity).
  rewrite Hb, Hd, Hrev. reflexivity.
Qed.

Lemma onInit_updateDataField st :
  updateDataField (bindings (stateOf (onInit st)))
  = Some (default (inputName (bindings st)) (updateDataField (bindings st))).
Proof.
  unfold onInit. cbn [stateOf].
  repeat match goal with |- context [if ?c then _ else _] => destruct c end;
    cbn; destruct (updateDataField (bindings st)); reflexivity.
Qed.

(** X12.  When [updateDataField] is not bound, [onInit] makes it the name of
    the field, so that later, outside revert mode, a change is reported to
    the host under the name of the field, after the rules were evaluated. *)
Theorem onChange_default_field (st st2 : State) (nm : NgModel) :
  updateDataField (bindings st) = None ->
  bindings st2 = bindings (stateOf (onInit st)) ->
  is_true (isDataRevert (bindings st2)) = false ->
  ngModel st2 = Some nm ->
  exists st' evs,
    onChange st2 = Normal st'
    /\ log st' = log st2 ++ evs
                 ++ [UpdateDataCallback (data st2) (Some (inputName (bindings st)))]
    /\ forallb isEvaluation evs = true.
Proof.
  intros Hfield Hb Hrev Hng.
  destruct (onChange_notify st2 nm Hng Hrev) as (evs & -> & Hlog & Hevs).
  eexists. exists evs. split; [reflexivity|]. split; [|exact Hevs].
  unfold emit. cbn. rewrite Hlog, <- app_assoc, Hb, onInit_updateDataField, Hfield.
  reflexivity.
Qed.

(** X13.  Clearing a field that is not required (and is not a schedule)
    empties the value and marks every rule valid without evaluating any;
    the model is then valid when the other validators accept the model
    value.  Outside revert mode the host is told the empty value; in revert
    mode it is not, and the empty value becomes the last valid value when
    the model is valid. *)
Theorem clearInputField_optional (st : State) (nm : NgModel) :
  String.eqb (selectedFieldType st) "schedule" = false ->
  is_true (validationIsRequired (bindings st)) = false ->
  ngModel st = Some nm ->
  let others := forallb (fun v => v (ng_modelValue nm)) (ng_validators nm) in
  exists st',
    clearInputField st = Normal st'
    /\ data st' = ""%string
    /\ Forall (fun p => isValid p.2 = JBool true) (ruleObjects st')
    /\ valid st' = Some others
    /\ if is_true (isDataRevert (bindings st))
       then log st' = log st
            /\ lastValidValue st'
               = (if others then ""%string else lastValidValue st)
       else log st'
            = log st ++ [UpdateDataCallback "" (updateDataField (bindings st))]
            /\ lastValidValue st' = lastValidValue st.
Proof.
  intros Htype Hreq Hng others.
  unfold clearInputField. rewrite Htype.
  set (st0 := set_data "" st).
  assert (Hv : validationRulesValidator (ng_modelValue nm) st0
               = (resetPatternsValidity st0, true)).
  { unfold validationRulesValidator. subst st0. cbn [bindings set_data data].
    rewrite Hreq. reflexivity. }
  pose proof (runValidators_ngModel (ng_modelValue nm) st0 nm Hng) as Hng1.
  pose proof (runValidators_shape (ng_modelValue nm) st0) as Hshape.
  pose proof (runValidators_heap (ng_modelValue nm) st0) as Hheap.
  pose proof (runValidators_log (ng_modelValue nm) st0) as Hlog.
  rewrite Hv in Hng1, Hheap, Hlog. cbn [fst snd andb] in Hng1, Hheap, Hlog.
  rewrite resetPatternsValidity_log in Hlog. fold others in Hng1.
  set (st1 := runValidators (ng_modelValue nm) st0) in *.
  assert (Hobjs : Forall (fun p => isValid p.2 = JBool true) (ruleObjects st1)).
  { rewrite (ruleObjects_ext (resetPatternsValidity st0) st1 Hheap).
    - rewrite resetPatternsValidity_ruleObjects. apply Forall_forall.
      intros p [q [<- _]]%list_elem_of_In%in_map_iff. reflexivity.
    - rewrite Hshape. cbn.
      rewrite (erase_eq _ _ (resetPatternsValidity_erase st0)). reflexivity. }
  assert (Hb : bindings st1 = bindings st) by (rewrite Hshape; reflexivity).
  assert (Hd : data st1 = ""%string) by (rewrite Hshape; reflexivity).
  assert (Hl : lastValidValue st1 = lastValidValue st)
    by (rewrite Hshape; reflexivity).
  unfold onChange, validate. change (ngModel st0) with (ngModel st).
  rewrite Hng. cbn [andThen]. fold st1. rewrite Hb.
  unfold valid at 1. rewrite Hng1. cbn [fmap option_fmap option_map ng_valid set_ng_valid].
  destruct (is_true (isDataRevert (bindings st))).
  - destruct others eqn:Ho; eexists; (split; [reflexivity|]);
      unfold valid; cbn; rewrite Hng1; cbn; rewrite ?Ho;
      repeat apply conj; auto.
  - eexists. split; [reflexivity|]. unfold valid, emit. cbn.
    rewrite Hng1, Hlog, Hd. cbn. repeat apply conj; auto.
Qed.

(** X14.  On the first change of the bound list of rules nothing is
    validated: every rule is copied as it is, validity flag included, and no
    rule is evaluated. *)
Theorem onChanges_first_rules (c : changes.t) (st : State)
    (ch : changes.change (list loc)) :
  changes.validationRules c = Some ch ->
  changes.isFirstChange ch = true ->
  let src := defaultTo (changes.currentValue ch) [] in
  Forall (fun l => (l < length (heap st))%nat) src ->
  exists st' ds,
    onChanges c st = Normal st'
    /\ validationRules st' = Val ds
    /\ Forall2 (fun s d => is_Some (heap st !! s)
                           /\ heap st' !! d = heap st !! s) src ds
    /\ log st' = log st
    /\ ngModel st' = ngModel st.
Proof.
  intros Hc Hfirst src Hlive.
  unfold onChanges, validationRulesChanged. rewrite Hc, Hfirst.
  set (st2 := isFocusedChanged c (inputValueChanged c st)).
  assert (Hst2 : heap st2 = heap st /\ log st2 = log st /\ ngModel st2 = ngModel st).
  { subst st2. unfold isFocusedChanged, inputValueChanged.
    destruct (changes.inputValue c), (changes.isFocused c) as [chf|];
      try destruct (negb (changes.isFirstChange chf)); repeat split. }
  destruct Hst2 as (Hheap & Hlog & Hng). clearbody st2. rewrite Hheap.
  fold src. destruct (copy src [] (heap st)) as [ds h] eqn:Hcopy.
  rewrite andb_false_r.
  exists (set_validationRules (Val ds) (set_heap h st2)), ds.
  split; [reflexivity|]. split; [reflexivity|].
  split; [|split; assumption].
  pose proof (copy_clones (heap st) src [] (heap st) ds h
                (ex_intro _ [] (eq_sym (app_nil_r _))) Hlive
                (Forall_nil_2 _) Hcopy) as Hclones.
  eapply Forall2_impl; [exact Hclones|].
  intros s d (r & Hs & Hd). cbn. rewrite Hs, Hd. eauto.
Qed.

(** X15.  A value that was typed but not committed yet is not lost by a
    blur: outside revert mode and with model options that let an invalid
    value reach the model ([allowInvalid: true], the default of the
    component), a blur that is not held back commits the pending view value,
    which makes the field dirty, writes the value, reports it to the host,
    and only then calls the blur callback with the new value. *)
Theorem onBlur_commits_pending (event : DomEvent) (st : State) (nm : NgModel) :
  allowsInvalid st = true ->
  preventInputBlur st = false ->
  is_true (isDataRevert (bindings st)) = false ->
  ngModel st = Some nm ->
  String.eqb (ng_lastCommittedViewValue nm) (ng_viewValue nm) = false ->
  String.eqb (ng_viewValue nm) (ng_modelValue nm) = false ->
  exists st' evs1 evs2,
    onBlur event st = Normal st'
    /\ data st' = ng_viewValue nm
    /\ ng_dirty <$> ngModel st' = Some true
    /\ ng_modelValue <$> ngModel st' = Some (ng_viewValue nm)
    /\ log st' = log st ++ evs1
                 ++ [UpdateDataCallback (ng_viewValue nm)
                       (updateDataField (bindings st))]
                 ++ evs2
                 ++ [ItemBlurCallback event (ng_viewValue nm)
                       (inputName (bindings st))]
    /\ forallb isEvaluation evs1 = true
    /\ forallb isEvaluation evs2 = true.
Proof.
  intros _ Hprevent Hrev Hng Hpending Hnew.
  unfold onBlur, commitViewValue. rewrite Hprevent.
  change (ngModel (set_inputFocused false st)) with (ngModel st).
  rewrite Hng, Hpending, Hnew.
  set (st0 := set_data (ng_viewValue nm)
                (set_ngModel (Some (committed nm)) (set_inputFocused false st))).
  destruct (onChange_notify st0 (committed nm) eq_refl Hrev)
    as (evs1 & -> & Hlog1 & Hevs1).
  cbn [andThen].
  pose proof (runValidators_shape (ng_modelValue (committed nm)) st0) as Hs1.
  pose proof (runValidators_ngModel (ng_modelValue (committed nm)) st0 _ eq_refl)
    as Hng1.
  set (st1 := runValidators (ng_modelValue (committed nm)) st0) in *.
  set (st2 := emit (UpdateDataCallback (data st0) (updateDataField (bindings st0))) st1).
  destruct (runValidators_evaluations (ng_viewValue nm) st2) as (evs2 & Hlog2 & Hevs2).
  pose proof (runValidators_shape (ng_viewValue nm) st2) as Hs2.
  assert (Hng2 : ngModel st2 = Some (set_ng_valid
                   ((validationRulesValidator (ng_modelValue (committed nm)) st0).2
                    && forallb (fun v => v (ng_modelValue (committed nm)))
                         (ng_validators (committed nm))) (committed nm)))
    by exact Hng1.
  pose proof (runValidators_ngModel (ng_viewValue nm) st2 _ Hng2) as Hng3.
  set (st3 := runValidators (ng_viewValue nm) st2) in *.
  assert (Hb : bindings st3 = bindings st)
    by (rewrite Hs2; cbn; rewrite Hs1; reflexivity).
  assert (Hd : data st3 = ng_viewValue nm)
    by (rewrite Hs2; cbn; rewrite Hs1; reflexivity).
  rewrite Hb, Hrev. cbn [andThen].
  eexists. exists evs1, evs2. split; [reflexivity|].
  unfold emit. cbn. rewrite Hd, Hb, Hng3, Hlog2. cbn.
  rewrite Hlog1. cbn. rewrite <- !app_assoc.
  repeat apply conj; auto.
Qed.

(** ** Before the field is linked *)

(** X16.  While the field is not linked ([ngModel] is still [null]) the
    handlers that need the model fail, and what they assigned before stays:
    [onChange] changes nothing, a blur that is not held back has already
    cleared the focus flag, and clearing a field that is not a schedule has
    already emptied the value.  The functions the template calls while
    rendering are safe: the field is not displayed as invalid. *)
Theorem unlinked_handlers (event : DomEvent) (st : State) :
  ngModel st = None ->
  onChange st = Throw st
  /\ (if preventInputBlur st
      then onBlur event st
           = Normal (emit (TargetFocus event)
                       (set_inputFocused true (set_preventInputBlur false st)))
      else onBlur event st = Throw (set_inputFocused false st))
  /\ (if String.eqb (selectedFieldType st) "schedule"
      then clearInputField st = Throw st
      else clearInputField st = Throw (set_data "" st))
  /\ truthy (isFieldInvalid st) = false.
Proof.
  intros Hng. repeat apply conj.
  - unfold onChange, validate. rewrite Hng. reflexivity.
  - unfold onBlur, commitViewValue. destruct (preventInputBlur st); [reflexivity|].
    cbn. rewrite Hng. reflexivity.
  - unfold clearInputField, setViewValue, onChange, validate.
    destruct (String.eqb _ _); cbn; rewrite Hng; reflexivity.
  - unfold isFieldInvalid, get, js_and, js_or. rewrite Hng.
    destruct (is_true _); [reflexivity|].
    destruct (formObject (bindings st)) as [[[]]|]; reflexivity.
Qed.

(** ** A change of the focus binding *)

(** X17.  A change of the [isFocused] binding makes the focus flag follow
    the new value ([false] for [null] or [undefined]).  On the first change
    no focus is requested; on every later change the focus is requested,
    also when the new value is [false], and when the queued request runs on
    a linked field the field gets the focus. *)
Theorem onChanges_isFocused (c : changes.t) (env : Browser) (st : State)
    (ch : changes.change bool) (nm : NgModel) :
  changes.isFocused c = Some ch ->
  changes.validationRules c = None ->
  ngModel st = Some nm ->
  let st' := stateOf (onChanges c st) in
  onChanges c st = Normal st'
  /\ inputFocused st' = defaultTo (changes.currentValue ch) false
  /\ log st' = log st
  /\ if changes.isFirstChange ch
     then timers st' = timers st
     else timers st' = timers st ++ [TFocusField]
          /\ log (step (ETimer (length (timers st)) env) st')
             = log st ++ [FieldFocus]
          /\ timers (step (ETimer (length (timers st)) env) st') = timers st.
Proof.
  intros Hf Hr Hng st'. subst st'.
  unfold onChanges, validationRulesChanged, isFocusedChanged, inputValueChanged.
  rewrite Hf, Hr. cbn [stateOf].
  destruct (changes.isFirstChange ch); cbn [negb];
    (split; [reflexivity|]); destruct (changes.inputValue c);
    (split; [reflexivity|]); (split; [reflexivity|]); try reflexivity.
  all: split; [reflexivity|].
  all: cbn [step defer timers set_timers set_inputFocused set_lastValidValue set_data].
  all: rewrite list_lookup_middle by reflexivity.
  all: assert (Hdel : delete (length (timers st)) (timers st ++ [TFocusField])
                      = timers st)
         by (induction (timers st) as [|t ts IH]; [reflexivity|];
             cbn; f_equal; exact IH).
  all: rewrite Hdel; cbn [runTask]; unfold focusField; cbn; rewrite Hng;
       split; reflexivity.
Qed.

(** ** The further statements at work on the example field *)

(** X3 on the example. *)
Lemma reachable_fieldType_known_witness :
  includes FIELD_TYPES
    (Some (selectedFieldType (rendering noAttributes "ABC"))) = true.
Proof.
  apply reachable_fieldType_known.
  exists noAttributes, hostRules,
    [EOnChanges (firstChanges "ABC"); EOnInit; EPostLink;
     ETimer 0 (browser "ABC")].
  reflexivity.
Defined.

(** X5 on the example: the window of the example has room below. *)
Lemma toggleValidationPopUp_placement_witness :
  showPopUpOnTop
    (step (ETimer (length (timers (rendering noAttributes "ABC"))) (browser "ABC"))
       (toggleValidationPopUp (rendering noAttributes "ABC"))) = false.
Proof.
  assert (H1 : rules (rendering noAttributes "ABC") <> []) by by_computation.
  assert (H2 : isValidationPopUpShown (rendering noAttributes "ABC") = false)
    by by_computation.
  assert (H3 : ngModel (rendering noAttributes "ABC")
               = Some (default (pristineField "")
                         (ngModel (rendering noAttributes "ABC"))))
    by by_computation.
  destruct (toggleValidationPopUp_placement (browser "ABC") _ _ H1 H2 H3)
    as (_ & _ & -> & _).
  by_computation.
Defined.

(** X6 on the example: the pop-up is open, the click is inside. *)
Lemma documentClick_inside_witness :
  step (EDocumentClick anEvent)
    (toggleValidationPopUp (rendering noAttributes "ABC"))
  = toggleValidationPopUp (rendering noAttributes "ABC").
Proof.
  assert (H1 : targetInside anEvent = true) by by_computation.
  assert (H2 : isValidationPopUpShown
                 (toggleValidationPopUp (rendering noAttributes "ABC")) = true)
    by by_computation.
  apply (documentClick_inside anEvent _ H1 H2).
Defined.

(** X12 on the example: the update is reported under "title". *)
Lemma onChange_default_field_witness :
  exists st' evs,
    onChange (rendering noAttributes "ABC") = Normal st'
    /\ log st' = log (rendering noAttributes "ABC") ++ evs
                 ++ [UpdateDataCallback "ABC" (Some "title"%string)].
Proof.
  assert (H1 : updateDataField
                 (bindings (stateOf (onChanges (firstChanges "ABC")
                                       (controller noAttributes hostRules))))
               = None) by by_computation.
  assert (H2 : bindings (rendering noAttributes "ABC")
               = bindings (stateOf (onInit
                   (stateOf (onChanges (firstChanges "ABC")
                               (controller noAttributes hostRules))))))
    by by_computation.
  assert (H3 : is_true (isDataRevert (bindings (rendering noAttributes "ABC")))
               = false) by by_computation.
  assert (H4 : ngModel (rendering noAttributes "ABC")
               = Some (default (pristineField "")
                         (ngModel (rendering noAttributes "ABC"))))
    by by_computation.
  destruct (onChange_default_field _ _ _ H1 H2 H3 H4) as (st' & evs & Hrun & Hlog & _).
  exists st', evs. split; [exact Hrun|]. rewrite Hlog. by_computation.
Defined.

(** X13 on the example: the field is cleared and the host is told. *)
Lemma clearInputField_optional_witness :
  exists st',
    clearInputField (rendering noAttributes "ABC") = Normal st'
    /\ data st' = ""%string.
Proof.
  assert (H1 : String.eqb (selectedFieldType (rendering noAttributes "ABC"))
                 "schedule" = false) by by_computation.
  assert (H2 : is_true (validationIsRequired
                          (bindings (rendering noAttributes "ABC"))) = false)
    by by_computation.
  assert (H3 : ngModel (rendering noAttributes "ABC")
               = Some (default (pristineField "")
                         (ngModel (rendering noAttributes "ABC"))))
    by by_computation.
  destruct (clearInputField_optional _ _ H1 H2 H3) as (st' & Hrun & Hd & _).
  exists st'. auto.
Defined.

(** X14 on the example: the two rules of the host are copied unvalidated. *)
Lemma onChanges_first_rules_witness :
  exists st',
    onChanges (firstChanges "ABC") (controller noAttributes hostRules) = Normal st'
    /\ log st' = [].
Proof.
  assert (Hlive : Forall (fun l => (l < 2)%nat) [0; 1]%nat)
    by (repeat constructor).
  destruct (onChanges_first_rules (firstChanges "ABC")
              (controller noAttributes hostRules)
              {| changes.currentValue := Val [0; 1]%nat;
                 changes.isFirstChange := true |} eq_refl eq_refl Hlive)
    as (st' & ds & Hrun & _ & _ & Hlog & _).
  exists st'. auto.
Defined.

(** X15 on the example: "abc" was typed, the blur commits it. *)
Lemma onBlur_commits_pending_witness :
  exists st', onBlur anEvent typing = Normal st' /\ data st' = "abc"%string.
Proof.
  assert (H0 : allowsInvalid typing = true) by by_computation.
  assert (H1 : preventInputBlur typing = false) by by_computation.
  assert (H2 : is_true (isDataRevert (bindings typing)) = false)
    by by_computation.
  assert (H3 : ngModel typing
               = Some (default (pristineField "") (ngModel typing)))
    by by_computation.
  assert (H4 : String.eqb
                 (ng_lastCommittedViewValue
                    (default (pristineField "") (ngModel typing)))
                 (ng_viewValue (default (pristineField "") (ngModel typing)))
               = false) by by_computation.
  assert (H5 : String.eqb
                 (ng_viewValue (default (pristineField "") (ngModel typing)))
                 (ng_modelValue (default (pristineField "") (ngModel typing)))
               = false) by by_computation.
  destruct (onBlur_commits_pending anEvent typing _ H0 H1 H2 H3 H4 H5)
    as (st' & evs1 & evs2 & Hrun & Hd & _).
  exists st'. split; [exact Hrun|]. rewrite Hd. by_computation.
Defined.

(** X16 on the example: the controller before it is linked. *)
Lemma unlinked_handlers_witness :
  onChange (controller noAttributes hostRules)
  = Throw (controller noAttributes hostRules).
Proof.
  apply (unlinked_handlers anEvent (controller noAttributes hostRules) eq_refl).
Defined.

(** X17 on the example: the binding changes to [false], the field is
    focused all the same. *)
Lemma onChanges_isFocused_witness :
  inputFocused (stateOf (onChanges focusRequest (rendering noAttributes "ABC")))
  = false
  /\ timers (stateOf (onChanges focusRequest (rendering noAttributes "ABC")))
     = timers (rendering noAttributes "ABC") ++ [TFocusField].
Proof.
  assert (H3 : ngModel (rendering noAttributes "ABC")
               = Some (default (pristineField "")
                         (ngModel (rendering noAttributes "ABC"))))
    by by_computation.
  destruct (onChanges_isFocused focusRequest (browser "ABC")
              (rendering noAttributes "ABC")
              {| changes.currentValue := Val false;
                 changes.isFirstChange := false |} _ eq_refl eq_refl H3)
    as (_ & Hf & _ & Ht & _).
  split; [exact Hf|exact Ht].
Defined.

(** X1 on the example: the blur that is held back leaves "abc" in place. *)
Lemma onBlur_flags_witness :
  preventInputBlur (stateOf (onBlur anEvent heldBack)) = false
  /\ data (stateOf (onBlur anEvent heldBack)) = data heldBack.
Proof.
  destruct (onBlur_flags anEvent heldBack) as (Hp & _ & _ & _ & Hheld).
  split; [exact Hp|].
  assert (H : preventInputBlur heldBack = true) by by_computation.
  destruct (Hheld H) as (_ & Hd & _). exact Hd.
Defined.

(** X4 on the example: the Enter key on the example field. *)
Lemma onKeyDown_enter_witness :
  step (ETimer (length (timers (rendering noAttributes "ABC"))) (browser "ABC"))
    (onKeyDown enterKey (rendering noAttributes "ABC"))
  = emit EnterCallback (rendering noAttributes "ABC").
Proof.
  destruct (onKeyDown_enter enterKey (browser "ABC") (rendering noAttributes "ABC"))
    as (Henter & _).
  apply Henter. reflexivity.
Defined.

(** X7 on the example: five characters against a limit of five. *)
Lemma getRemainingCharactersCount_null_witness :
  getRemainingCharactersCount (counterField (Some "5"%string) "Hello")
  = Some "0"%string.
Proof.
  destruct (getRemainingCharactersCount_null
              (counterField (Some "5"%string) "Hello")) as (_ & Hpos).
  rewrite (Hpos 5); [reflexivity|reflexivity|lia|reflexivity].
Defined.
